(** * Vapor-compression chiller: operating point and annualised investment cost

    A shallow embedding of [cea/technologies/chiller_vapor_compression.py]
    (City Energy Analyst) and the properties of its two functions,
    [calc_VCC] and [calc_Cinv_VCC].

    Numbers.  The source computes on floating-point numbers; the embedding
    idealises them as the real numbers of the Standard Library, so that
    "equal" means equal as reals and rounding is out of the picture.  An
    operation without a real value (a division by zero, the logarithm of a
    non-positive number) does not return a number: Python raises
    [ZeroDivisionError] / [ValueError] on its own floats and numpy yields a
    non-finite value on the scalars read from a table.  Both are rendered
    as the outcome [Err Singularity].

    Cells of the cost table.  [pd.read_excel] reads a column of whole
    numbers as 64-bit integers and any other numeric column as floats, and
    numpy computes on two integers in 64-bit integer arithmetic: sums,
    products and powers wrap around modulo 2^64 and an integer raised to a
    negative integer raises [ValueError].  A cell is therefore a [number],
    an integer or a float, and the arithmetic of the cost curve follows
    the kinds of its operands.

    Errors.  Every function returns a [result]: [Ok v] for a returned
    value, [Err e] for an exception (or non-finite value) that the source
    does not catch. *)

From Stdlib Require Import Reals Lra Psatz ZArith List String Bool.
Import ListNotations.

Open Scope R_scope.

(** ** Outcomes *)

Inductive error : Type :=
| Singularity   (* division by zero, log or power outside the domain *)
| IndexError    (* list index or positional [iloc] out of range *)
| KeyError      (* label lookup in an empty column *)
| IOError       (* the cost table cannot be read *)
| ValueError.   (* an integer raised to a negative integer power *)

Inductive result (A : Type) : Type :=
| Ok  : A -> result A
| Err : error -> result A.

Arguments Ok {A} _.
Arguments Err {A} _.

Definition bind {A B : Type} (m : result A) (k : A -> result B) : result B :=
  match m with
  | Ok x => k x
  | Err e => Err e
  end.

Notation "x <- m ;; k" := (bind m (fun x => k))
  (at level 61, m at next level, right associativity).

(** ** Arithmetic of the host language *)

(** [x / y] of the source: no value when the divisor is zero. *)
Definition fdiv (x y : R) : result R :=
  if Req_dec_T y 0 then Err Singularity else Ok (x / y).

Infix "/?" := fdiv (at level 40, left associativity).

(** [math.log]: defined on the positive numbers only. *)
Definition py_log (x : R) : result R :=
  if Rlt_dec 0 x then Ok (ln x) else Err Singularity.

(** [x ** y] on floats.  A positive base gives [exp (y * ln x)]; a zero
    base gives 0 for a positive exponent, 1 for the exponent 0 and no
    value for a negative exponent; a negative base has a value only for an
    integral exponent. *)
Definition py_pow (x y : R) : result R :=
  if Rlt_dec 0 x then Ok (Rpower x y)
  else if Req_dec_T x 0 then
    if Rlt_dec 0 y then Ok 0
    else if Req_dec_T y 0 then Ok 1
    else Err Singularity
  else
    if Req_dec_T (IZR (Int_part y)) y then Ok (powerRZ x (Int_part y))
    else Err Singularity.

(** ** Numbers of the cost table *)

(** A numeric cell as [pd.read_excel] delivers it, and a capacity as the
    function holds it: a numpy 64-bit integer or a float. *)
Inductive number : Type :=
| int64 (z : Z)
| float64 (x : R).

(** The number a cell stands for; it is what comparisons, true division,
    [math.log] and every operation with a float operand work on. *)
Definition value (n : number) : R :=
  match n with
  | int64 z => IZR z
  | float64 x => x
  end.

Coercion value : number >-> R.

(** Two's-complement wrap-around of 64-bit integer arithmetic. *)
Definition wrap64 (z : Z) : Z := ((z + 2 ^ 63) mod 2 ^ 64 - 2 ^ 63)%Z.

(** [x + y]: integer addition on two integers, float addition otherwise. *)
Definition num_add (x y : number) : number :=
  match x, y with
  | int64 a, int64 b => int64 (wrap64 (a + b))
  | _, _ => float64 (value x + value y)
  end.

(** [x * y]: integer product on two integers, float product otherwise. *)
Definition num_mul (x y : number) : number :=
  match x, y with
  | int64 a, int64 b => int64 (wrap64 (a * b))
  | _, _ => float64 (value x * value y)
  end.

(** [x ** y]: on two integers the integer power, which numpy refuses for a
    negative exponent; the float power otherwise. *)
Definition num_pow (x y : number) : result number :=
  match x, y with
  | int64 a, int64 b =>
      if (b <? 0)%Z then Err ValueError else Ok (int64 (wrap64 (a ^ b)))
  | _, _ => p <- py_pow (value x) (value y) ;; Ok (float64 p)
  end.

Infix "+#" := num_add (at level 50, left associativity).
Infix "*#" := num_mul (at level 40, left associativity).

(** ** Technical model: [calc_VCC] *)

Record chiller_operation : Type := mk_chiller_operation
  { wdot_W : R;    (* chiller electric power requirement *)
    q_cw_W : R }.  (* condenser heat rejection *)

Section TechnicalModel.

(** The two imported constants, [cea.constants.HEAT_CAPACITY_OF_WATER_JPERKGK]
    and [cea.optimization.constants.VCC_T_COOL_IN]; their defining modules
    are not part of the file, so they are parameters of the model. *)
Variable HEAT_CAPACITY_OF_WATER_JPERKGK : R.
Variable VCC_T_COOL_IN : R.

Definition calc_VCC (mdot_kgpers T_sup_K T_re_K : R) : result chiller_operation :=
  if Req_dec_T mdot_kgpers 0 then
    Ok {| wdot_W := 0; q_cw_W := 0 |}
  else
    let q_chw_W := mdot_kgpers * HEAT_CAPACITY_OF_WATER_JPERKGK * (T_re_K - T_sup_K) in
    let T_cw_in_K := VCC_T_COOL_IN in
    A <- 0.0201E-3 * q_chw_W /? T_cw_in_K ;;
    B <- T_re_K /? T_cw_in_K ;;
    C1 <- 0.1980E3 * T_re_K /? q_chw_W ;;
    C2 <- 168.1846E3 * (T_cw_in_K - T_re_K) /? (T_cw_in_K * q_chw_W) ;;
    let C := C1 + C2 in
    ratio <- (1 + C) /? (B - A) ;;
    COP <- 1 /? (ratio - 1) ;;
    wdot <- q_chw_W /? COP ;;
    let q_cw := wdot + q_chw_W in
    Ok {| wdot_W := wdot; q_cw_W := q_cw |}.

(** *** The correlation as the specification writes it *)

(** Evaporator cooling duty. *)
Definition evaporator_duty (m T_sup T_re : R) : R :=
  m * HEAT_CAPACITY_OF_WATER_JPERKGK * (T_re - T_sup).

Definition term_A (Q : R) : R := 0.0201E-3 * Q / VCC_T_COOL_IN.
Definition term_B (T_re : R) : R := T_re / VCC_T_COOL_IN.
Definition term_C (Q T_re : R) : R :=
  0.1980E3 * T_re / Q
  + 168.1846E3 * (VCC_T_COOL_IN - T_re) / (VCC_T_COOL_IN * Q).

Definition spec_COP (Q T_re : R) : R :=
  1 / ((1 + term_C Q T_re) / (term_B T_re - term_A Q) - 1).

(** The numerator of term C, [C = c0 / Q]. *)
Definition c0 (T_re : R) : R :=
  0.1980E3 * T_re + 168.1846E3 * (VCC_T_COOL_IN - T_re) / VCC_T_COOL_IN.

(** The operating points at which every division of the correlation has
    a non-zero divisor. *)
Definition regular (Q T_re : R) : Prop :=
  VCC_T_COOL_IN <> 0 /\
  Q <> 0 /\
  term_B T_re - term_A Q <> 0 /\
  (1 + term_C Q T_re) / (term_B T_re - term_A Q) - 1 <> 0.

(** Both outputs strictly increasing in the flow, at fixed temperatures with
    [T_re > T_sup], over all positive flows. *)
Definition strictly_increasing_in_flow : Prop :=
  forall T_sup T_re m1 m2 r1 r2,
    0 < T_sup -> T_sup < T_re ->
    0 < m1 -> m1 < m2 ->
    calc_VCC m1 T_sup T_re = Ok r1 ->
    calc_VCC m2 T_sup T_re = Ok r2 ->
    wdot_W r1 < wdot_W r2 /\ q_cw_W r1 < q_cw_W r2.

End TechnicalModel.

(** ** Investment costs: [calc_Cinv_VCC] *)

(** One row of the sheet "Chiller" of the supply-systems workbook, with the
    columns the function reads. *)
Record row : Type := mk_row
  { code    : string;
    cap_min : number;
    cap_max : number;
    col_a   : number;
    col_b   : number;
    col_c   : number;
    col_d   : number;
    col_e   : number;
    IR_pct  : number;    (* column [IR_%] *)
    LT_yr   : number;
    OM_pct  : number }.  (* column [O&M_%] *)

(** A data frame as [pd.read_excel] builds it: the rows in sheet order,
    labelled 0, 1, 2, ... so that the label 0 is the first row. *)
Definition DataFrame : Type := list row.

(** The only effect of the function: reading the workbook. *)
Inductive event : Type :=
| ReadExcel.

Definition Rleb (x y : R) : bool := if Rle_dec x y then true else false.
Definition Rgtb (x y : R) : bool := if Rgt_dec x y then true else false.

(** [l[i]] on a Python list: a negative index counts from the end. *)
Definition list_getitem {A : Type} (l : list A) (i : Z) : result A :=
  let n := Z.of_nat (List.length l) in
  let j := if (i <? 0)%Z then (i + n)%Z else i in
  if ((0 <=? j)%Z && (j <? n)%Z)%bool then
    match nth_error l (Z.to_nat j) with
    | Some x => Ok x
    | None => Err IndexError
    end
  else Err IndexError.

(** [column[0]]: the entry labelled 0 of a column of a freshly read frame. *)
Definition label0 {A : Type} (column : list A) : result A :=
  match column with
  | x :: _ => Ok x
  | [] => Err KeyError
  end.

(** [frame.iloc[0]]: the first row by position. *)
Definition iloc0 (frame : DataFrame) : result row :=
  match frame with
  | r :: _ => Ok r
  | [] => Err IndexError
  end.

(** The mask of line 96: [(cap_min <= qcold_W) & (cap_max > qcold_W)]. *)
Definition in_bracket (qcold_W : R) (r : row) : bool :=
  Rleb (cap_min r) qcold_W && Rgtb (cap_max r) qcold_W.

Definition select_bracket (VCC_cost_data : DataFrame) (qcold_W : R) : DataFrame :=
  filter (in_bracket qcold_W) VCC_cost_data.

(** Lines 93-94: the capacity after the comparison with [cap_min] at the
    label 0.  The argument [qcold_W] is a float, as the docstring declares
    it; when it is replaced, the capacity becomes the cell itself, an
    integer for a column of whole numbers. *)
Definition clamp_capacity (qcold_W : R) (least : number) : number :=
  if Rlt_dec qcold_W least then least else float64 qcold_W.

(** Lines 97-107: the cost curve of the row [r] at the capacity [qcold_W],
    annualised. *)
Definition cost_curve (r : row) (qcold_W : number) : result (R * R) :=
  let Inv_a := col_a r in
  let Inv_b := col_b r in
  let Inv_c := col_c r in
  let Inv_d := col_d r in
  let Inv_e := col_e r in
  let Inv_IR := IR_pct r / 100 in
  let Inv_LT := LT_yr r in
  let Inv_OM := OM_pct r / 100 in
  power <- num_pow qcold_W Inv_c ;;
  logarithm <- py_log qcold_W ;;
  let InvC :=
    Inv_a +# Inv_b *# power +# (Inv_d +# Inv_e *# qcold_W) *# float64 logarithm in
  growth <- py_pow (1 + Inv_IR) Inv_LT ;;
  Capex_a <- InvC * Inv_IR * growth /? (growth - 1) ;;
  let Opex_fixed := Capex_a * Inv_OM in
  Ok (Capex_a, Opex_fixed).

Section InvestmentCosts.

(** [list(set(codes))]: the distinct codes in the iteration order of a
    Python set, which the language leaves unspecified. *)
Variable list_set : list string -> list string.

(** [locator] stands for the outcome of
    [pd.read_excel(locator.get_supply_systems(cea.config.region), sheetname="Chiller")]:
    the frame, or [None] when the workbook or the sheet cannot be read.
    The function returns the trace of its reads with its outcome. *)
Definition calc_Cinv_VCC (qcold_W : R) (locator : option DataFrame) (technology : Z)
  : list event * result (R * R) :=
  if Rgt_dec qcold_W 0 then
    ([ReadExcel],
     VCC_cost_data <- match locator with Some frame => Ok frame | None => Err IOError end ;;
     let technology_code := list_set (map code VCC_cost_data) in
     selected <- list_getitem technology_code technology ;;
     (* line 89: the filtered frame is built and dropped *)
     let _ := filter (fun r => String.eqb (code r) selected) VCC_cost_data in
     least <- label0 (map cap_min VCC_cost_data) ;;
     let qcold_W := clamp_capacity qcold_W least in
     let VCC_cost_data := select_bracket VCC_cost_data qcold_W in
     r <- iloc0 VCC_cost_data ;;
     cost_curve r qcold_W)
  else
    ([], Ok (0, 0)).

End InvestmentCosts.

(** *** The cost formulas as the specification writes them *)

Definition spec_InvC (r : row) (q : R) : R :=
  col_a r + col_b r * Rpower q (col_c r) + (col_d r + col_e r * q) * ln q.

(** [growth] stands for [(1+IR)^LT]. *)
Definition spec_Capex_a (r : row) (q growth : R) : R :=
  spec_InvC r q * (IR_pct r / 100) * growth / (growth - 1).

Definition spec_Opex_fixed (r : row) (q growth : R) : R :=
  spec_Capex_a r q growth * (OM_pct r / 100).

(** The bracket of a row, lower-inclusive and upper-exclusive. *)
Definition bracket_contains (r : row) (q : R) : Prop :=
  cap_min r <= q < cap_max r.

(** [r] is the first row of the frame whose bracket contains [q]. *)
Definition first_in_bracket (frame : DataFrame) (q : R) (r : row) : Prop :=
  exists before after,
    frame = before ++ r :: after /\
    bracket_contains r q /\
    Forall (fun r' => ~ bracket_contains r' q) before.

(** The smallest [cap_min] over the rows of a non-empty frame. *)
Fixpoint table_minimum (first : row) (rest : DataFrame) : R :=
  match rest with
  | [] => cap_min first
  | r :: rest' => Rmin (cap_min first) (table_minimum r rest')
  end.

(** The 64-bit integers. *)
Definition fits (z : Z) : Prop := (- 2 ^ 63 <= z < 2 ^ 63)%Z.

(** Line 105 runs without an integer overflow and without a negative
    integer exponent: with a float capacity every operation has a float
    operand; with an integer capacity [z] the integer intermediates
    [z ^ c], [b * z ^ c], [a + b * z ^ c], [e * z] and [d + e * z] that
    arise among integer cells stay within 64 bits. *)
Definition integer_safe (r : row) (q : number) : Prop :=
  match q with
  | float64 _ => True
  | int64 z =>
      match col_c r with
      | float64 _ => True
      | int64 c =>
          (0 <= c)%Z /\ fits (z ^ c) /\
          match col_b r with
          | float64 _ => True
          | int64 b =>
              fits (b * z ^ c) /\
              match col_a r with
              | float64 _ => True
              | int64 a => fits (a + b * z ^ c)
              end
          end
      end
      /\
      match col_e r with
      | float64 _ => True
      | int64 e =>
          fits (e * z) /\
          match col_d r with
          | float64 _ => True
          | int64 d => fits (d + e * z)
          end
      end
  end.

(** *** Sample tables

    Sheets of whole numbers, read as integers.  Rows with the curve
    [InvC = a + q] (b = 1, c = 1, d = e = 0), an interest rate of 100 %, a
    lifetime of one year and 10 % O&M, so that [(1+IR)^LT = 2],
    [Capex_a = 2 * (a + q)] and [Opex_fixed = Capex_a / 10]. *)

Definition sample_row (technology : string) (lo hi a : Z) : row :=
  {| code := technology; cap_min := int64 lo; cap_max := int64 hi;
     col_a := int64 a; col_b := int64 1; col_c := int64 1;
     col_d := int64 0; col_e := int64 0;
     IR_pct := int64 100; LT_yr := int64 1; OM_pct := int64 10 |}.

(** One technology, two adjacent brackets sharing the boundary 100. *)
Definition small_chiller : row := sample_row "CH1" 10 100 1000.
Definition large_chiller : row := sample_row "CH1" 100 1000 5000.
Definition one_technology : DataFrame := [small_chiller; large_chiller].

(** Two technologies over the same bracket. *)
Definition first_technology : row := sample_row "CH1" 10 1000 1000.
Definition second_technology : row := sample_row "CH2" 10 1000 2000.
Definition two_technologies : DataFrame := [first_technology; second_technology].

(** Two technologies, the first in sheet order starting at the larger
    capacity. *)
Definition big_units : row := sample_row "CH1" 100 1000 5000.
Definition small_units : row := sample_row "CH2" 10 100 1000.
Definition big_units_first : DataFrame := [big_units; small_units].

(** An iteration order for [list(set(...))]: first occurrences dropped,
    last occurrences kept in sheet order. *)
Definition sheet_order : list string -> list string := nodup string_dec.

(** A sheet whose only row carries no interest. *)
Definition interest_free : row :=
  {| code := "CH1"; cap_min := int64 10; cap_max := int64 1000;
     col_a := int64 1000; col_b := int64 1; col_c := int64 1;
     col_d := int64 0; col_e := int64 0;
     IR_pct := int64 0; LT_yr := int64 20; OM_pct := int64 10 |}.
Definition interest_free_sheet : DataFrame := [interest_free].

(** A sheet of whole numbers with a cubic curve, [InvC = q ^ 3], whose
    only bracket starts at 3 MW. *)
Definition cubic_row : row :=
  {| code := "CH1"; cap_min := int64 3000000; cap_max := int64 1000000000;
     col_a := int64 0; col_b := int64 1; col_c := int64 3;
     col_d := int64 0; col_e := int64 0;
     IR_pct := int64 100; LT_yr := int64 1; OM_pct := int64 10 |}.
Definition cubic_sheet : DataFrame := [cubic_row].

(** A sheet of whole numbers with a reciprocal curve, [InvC = 1 / q]. *)
Definition reciprocal_row : row :=
  {| code := "CH1"; cap_min := int64 10; cap_max := int64 1000;
     col_a := int64 0; col_b := int64 1; col_c := int64 (-1);
     col_d := int64 0; col_e := int64 0;
     IR_pct := int64 100; LT_yr := int64 1; OM_pct := int64 10 |}.
Definition reciprocal_sheet : DataFrame := [reciprocal_row].

(** * Properties *)

(** ** Checked division *)

Lemma fdiv_ok (x y : R) : y <> 0 -> x /? y = Ok (x / y).
Proof.
  intros Hy. unfold fdiv. destruct (Req_dec_T y 0) as [E | _]; [contradiction | reflexivity].
Qed.

Lemma fdiv_zero (x : R) : x /? 0 = Err Singularity.
Proof.
  unfold fdiv. destruct (Req_dec_T 0 0) as [_ | N]; [reflexivity | now destruct N].
Qed.

Lemma fdiv_inv (x y z : R) : x /? y = Ok z -> y <> 0 /\ z = x / y.
Proof.
  unfold fdiv. destruct (Req_dec_T y 0) as [E | N]; intros H.
  - discriminate H.
  - injection H as <-. split; [exact N | reflexivity].
Qed.

Lemma bind_inv {A B : Type} (m : result A) (k : A -> result B) (b : B) :
  bind m k = Ok b -> exists x, m = Ok x /\ k x = Ok b.
Proof.
  destruct m as [x | e]; simpl; intros H.
  - exists x. split; [reflexivity | exact H].
  - discriminate H.
Qed.

Lemma inverse_nonzero (x : R) : x <> 0 -> 1 / x <> 0.
Proof.
  intros Hx. unfold Rdiv. rewrite Rmult_1_l. apply Rinv_neq_0_compat. exact Hx.
Qed.

(** ** The operating point *)

Section TechnicalModelFacts.

Variable cp T_cw : R.

Local Abbreviation duty := (evaporator_duty cp).
Local Abbreviation COP := (spec_COP T_cw).

(** At a regular operating point the function returns the correlation's
    values. *)
Lemma calc_VCC_regular (m T_sup T_re : R) :
  m <> 0 ->
  regular T_cw (duty m T_sup T_re) T_re ->
  calc_VCC cp T_cw m T_sup T_re
  = Ok {| wdot_W := duty m T_sup T_re / COP (duty m T_sup T_re) T_re;
          q_cw_W := duty m T_sup T_re / COP (duty m T_sup T_re) T_re
                    + duty m T_sup T_re |}.
Proof.
  intros Hm (HT & HQ & HBA & Hr).
  unfold calc_VCC. destruct (Req_dec_T m 0) as [E | _]; [contradiction |].
  fold (duty m T_sup T_re). set (Q := duty m T_sup T_re) in *.
  unfold term_A, term_B, term_C in *.
  rewrite (fdiv_ok _ T_cw HT). simpl.
  rewrite (fdiv_ok _ T_cw HT). simpl.
  rewrite (fdiv_ok _ Q HQ). simpl.
  rewrite (fdiv_ok _ (T_cw * Q)) by (apply Rmult_integral_contrapositive_currified; assumption).
  simpl.
  rewrite (fdiv_ok _ _ HBA). simpl.
  rewrite (fdiv_ok _ _ Hr). simpl.
  rewrite (fdiv_ok _ _ (inverse_nonzero _ Hr)). simpl.
  reflexivity.
Qed.

(** Whenever the function returns with a non-zero flow, the operating point
    is regular. *)
Lemma calc_VCC_returns_regular (m T_sup T_re : R) (r : chiller_operation) :
  m <> 0 ->
  calc_VCC cp T_cw m T_sup T_re = Ok r ->
  regular T_cw (duty m T_sup T_re) T_re.
Proof.
  intros Hm. unfold calc_VCC. destruct (Req_dec_T m 0) as [E | _]; [contradiction |].
  fold (duty m T_sup T_re). set (Q := duty m T_sup T_re).
  intros H.
  apply bind_inv in H as (A & HA & H). apply fdiv_inv in HA as (HT & ->).
  apply bind_inv in H as (B & HB & H). apply fdiv_inv in HB as (_ & ->).
  apply bind_inv in H as (C1 & HC1 & H). apply fdiv_inv in HC1 as (HQ & ->).
  apply bind_inv in H as (C2 & HC2 & H). apply fdiv_inv in HC2 as (_ & ->).
  apply bind_inv in H as (ratio & Hratio & H). apply fdiv_inv in Hratio as (HBA & ->).
  apply bind_inv in H as (cop & Hcop & H). apply fdiv_inv in Hcop as (Hr & ->).
  unfold regular, term_A, term_B, term_C. repeat split; assumption.
Qed.

(** The power draw [Q / COP] in closed form: a rational function of the
    duty with a pole at [Q = T_re / 0.0201E-3]. *)
Lemma power_closed_form (Q T_re : R) :
  regular T_cw Q T_re ->
  Q / COP Q T_re = (Q + c0 T_cw T_re) * T_cw / (T_re - 0.0201E-3 * Q) - Q.
Proof.
  intros (HT & HQ & HBA & Hr).
  assert (HD : T_re - 0.0201E-3 * Q <> 0).
  { intros E. apply HBA. unfold term_B, term_A.
    replace (T_re / T_cw - 0.0201E-3 * Q / T_cw)
      with ((T_re - 0.0201E-3 * Q) / T_cw) by (field; exact HT).
    rewrite E. unfold Rdiv. ring. }
  unfold spec_COP. unfold Rdiv at 1 2. rewrite Rmult_1_l, Rinv_inv.
  unfold c0, term_A, term_B, term_C. field.
  repeat split; try assumption. intros E. apply HD. lra.
Qed.

Lemma c0_positive (T_re : R) : 0 < T_re -> T_re <= T_cw -> 0 < c0 T_cw T_re.
Proof.
  intros Hre Hle. unfold c0.
  assert (0 <= 168.1846E3 * (T_cw - T_re) / T_cw).
  { apply Rmult_le_pos; [nra | left; apply Rinv_0_lt_compat; lra]. }
  lra.
Qed.

(** Below the pole, with the return temperature at most the condenser
    inlet temperature, every operating point with a positive duty is
    regular. *)
Lemma regular_below_pole (Q T_re : R) :
  0 < T_re -> T_re <= T_cw -> 0 < Q -> 0.0201E-3 * Q < T_re ->
  regular T_cw Q T_re.
Proof.
  intros Hre Hle HQ Hpole.
  pose proof (c0_positive T_re Hre Hle) as Hc0.
  assert (HT : 0 < T_cw) by lra.
  assert (HBA : term_B T_cw T_re - term_A T_cw Q = (T_re - 0.0201E-3 * Q) / T_cw).
  { unfold term_A, term_B. field. lra. }
  assert (HC : term_C T_cw Q T_re = c0 T_cw T_re / Q).
  { unfold term_C, c0. field. lra. }
  assert (Hpos : 0 < (T_re - 0.0201E-3 * Q) / T_cw).
  { apply Rdiv_lt_0_compat; lra. }
  assert (Hlt1 : (T_re - 0.0201E-3 * Q) / T_cw < 1).
  { apply (Rmult_lt_reg_r T_cw); [exact HT |].
    unfold Rdiv. rewrite Rmult_assoc, Rinv_l by lra. lra. }
  assert (HCpos : 0 < c0 T_cw T_re / Q) by (apply Rdiv_lt_0_compat; assumption).
  unfold regular. rewrite HBA, HC.
  repeat split; try lra.
  assert (1 < (1 + c0 T_cw T_re / Q) / ((T_re - 0.0201E-3 * Q) / T_cw)); [| lra].
  apply (Rmult_lt_reg_r ((T_re - 0.0201E-3 * Q) / T_cw)); [exact Hpos |].
  unfold Rdiv at 3. rewrite Rmult_assoc, Rinv_l by lra. lra.
Qed.

(** The closed form is strictly increasing in the duty below the pole. *)
Lemma closed_form_increasing (Q1 Q2 T_re : R) :
  0 < T_re -> T_re <= T_cw -> 0 < Q1 -> Q1 < Q2 -> 0.0201E-3 * Q2 < T_re ->
  (Q1 + c0 T_cw T_re) * T_cw / (T_re - 0.0201E-3 * Q1) - Q1
  < (Q2 + c0 T_cw T_re) * T_cw / (T_re - 0.0201E-3 * Q2) - Q2.
Proof.
  intros Hre Hle HQ1 HQ12 Hpole.
  pose proof (c0_positive T_re Hre Hle) as Hc0.
  set (k := c0 T_cw T_re) in *.
  set (D1 := T_re - 0.0201E-3 * Q1). set (D2 := T_re - 0.0201E-3 * Q2).
  assert (HD1 : 0 < D1) by (unfold D1; lra).
  assert (HD2 : 0 < D2) by (unfold D2; lra).
  assert (HD1' : D1 < T_re) by (unfold D1; lra).
  assert (HD2' : D2 < T_re) by (unfold D2; lra).
  apply Rlt_0_minus.
  replace ((Q2 + k) * T_cw / D2 - Q2 - ((Q1 + k) * T_cw / D1 - Q1))
    with ((Q2 - Q1) * ((T_cw * (T_re + 0.0201E-3 * k) - D1 * D2) / (D1 * D2)))
    by (unfold D1, D2; field; fold D1; fold D2; split; lra).
  apply Rmult_lt_0_compat; [lra |].
  apply Rdiv_lt_0_compat; [| apply Rmult_lt_0_compat; assumption].
  assert (D1 * D2 < T_re * T_re) by (apply Rmult_gt_0_lt_compat; lra).
  assert (T_re * T_re <= T_cw * T_re) by (apply Rmult_le_compat_r; lra).
  assert (0 < T_cw * (0.0201E-3 * k)) by (apply Rmult_lt_0_compat; lra).
  lra.
Qed.

(** Above the pole the operating point is still regular. *)
Lemma regular_above_pole (Q T_re : R) :
  0 < T_re -> T_re <= T_cw -> 0 < Q -> T_re < 0.0201E-3 * Q ->
  regular T_cw Q T_re.
Proof.
  intros Hre Hle HQ Hpole.
  pose proof (c0_positive T_re Hre Hle) as Hc0.
  assert (HT : 0 < T_cw) by lra.
  assert (HBA : term_B T_cw T_re - term_A T_cw Q = - ((0.0201E-3 * Q - T_re) / T_cw)).
  { unfold term_A, term_B. field. lra. }
  assert (HC : term_C T_cw Q T_re = c0 T_cw T_re / Q).
  { unfold term_C, c0. field. lra. }
  assert (Hpos : 0 < (0.0201E-3 * Q - T_re) / T_cw).
  { apply Rdiv_lt_0_compat; lra. }
  assert (HCpos : 0 < c0 T_cw T_re / Q) by (apply Rdiv_lt_0_compat; assumption).
  unfold regular. rewrite HBA, HC.
  repeat split; try lra.
  assert ((1 + c0 T_cw T_re / Q) / - ((0.0201E-3 * Q - T_re) / T_cw) < 0); [| lra].
  unfold Rdiv at 1. rewrite Rinv_opp, Ropp_mult_distr_r_reverse.
  apply Ropp_lt_gt_0_contravar. apply Rmult_lt_0_compat; [lra |].
  apply Rinv_0_lt_compat. exact Hpos.
Qed.

Lemma closed_form_positive_below_pole (Q T_re : R) :
  0 < T_re -> T_re <= T_cw -> 0 < Q -> 0.0201E-3 * Q < T_re ->
  0 < (Q + c0 T_cw T_re) * T_cw / (T_re - 0.0201E-3 * Q) - Q.
Proof.
  intros Hre Hle HQ Hpole.
  pose proof (c0_positive T_re Hre Hle) as Hc0.
  set (k := c0 T_cw T_re) in *. set (D := T_re - 0.0201E-3 * Q).
  assert (HD : 0 < D) by (unfold D; lra).
  assert (HDT : D < T_cw) by (unfold D; lra).
  replace ((Q + k) * T_cw / D - Q) with (((Q + k) * T_cw - Q * D) / D) by (field; lra).
  apply Rdiv_lt_0_compat; [| exact HD].
  assert (Q * D < Q * T_cw) by (apply Rmult_lt_compat_l; lra).
  assert (0 < k * T_cw) by (apply Rmult_lt_0_compat; lra).
  lra.
Qed.

Lemma closed_form_negative_above_pole (Q T_re : R) :
  0 < T_re -> T_re <= T_cw -> 0 < Q -> T_re < 0.0201E-3 * Q ->
  (Q + c0 T_cw T_re) * T_cw / (T_re - 0.0201E-3 * Q) - Q < 0.
Proof.
  intros Hre Hle HQ Hpole.
  pose proof (c0_positive T_re Hre Hle) as Hc0.
  set (k := c0 T_cw T_re) in *. set (D := 0.0201E-3 * Q - T_re).
  assert (HD : 0 < D) by (unfold D; lra).
  replace ((Q + k) * T_cw / (T_re - 0.0201E-3 * Q) - Q)
    with (- ((Q + k) * T_cw / D + Q)) by (unfold D; field; lra).
  assert (0 < (Q + k) * T_cw / D).
  { apply Rdiv_lt_0_compat; [apply Rmult_lt_0_compat; lra | exact HD]. }
  lra.
Qed.

(** What the function returns at a regular point, with the power draw in
    closed form. *)
Lemma calc_VCC_closed_form (m T_sup T_re : R) :
  m <> 0 ->
  regular T_cw (duty m T_sup T_re) T_re ->
  exists r,
    calc_VCC cp T_cw m T_sup T_re = Ok r /\
    wdot_W r = (duty m T_sup T_re + c0 T_cw T_re) * T_cw
               / (T_re - 0.0201E-3 * duty m T_sup T_re) - duty m T_sup T_re /\
    q_cw_W r = wdot_W r + duty m T_sup T_re.
Proof.
  intros Hm Hreg. eexists. split; [apply calc_VCC_regular; assumption |].
  simpl. split; [apply power_closed_form; exact Hreg | reflexivity].
Qed.

Lemma duty_positive (m T_sup T_re : R) :
  0 < cp -> 0 < m -> T_sup < T_re -> 0 < duty m T_sup T_re.
Proof.
  intros Hcp Hm HT. unfold evaporator_duty.
  apply Rmult_lt_0_compat; [apply Rmult_lt_0_compat; assumption | lra].
Qed.

Lemma duty_increasing (m1 m2 T_sup T_re : R) :
  0 < cp -> m1 < m2 -> T_sup < T_re -> duty m1 T_sup T_re < duty m2 T_sup T_re.
Proof.
  intros Hcp Hm HT. unfold evaporator_duty.
  apply Rmult_lt_compat_r; [lra |]. apply Rmult_lt_compat_r; assumption.
Qed.

(** C1.  With a non-zero flow, every returned power draw is [Q / COP] for
    the duty [Q = m * c_p * (T_re - T_sup)], the terms A, B, C of the
    correlation and the constant condenser inlet temperature; and the
    function does return whenever no divisor of the correlation is zero. *)
Theorem calc_VCC_power_draw (m T_sup T_re : R) :
  m <> 0 ->
  let Q := m * cp * (T_re - T_sup) in
  let A := 0.0201E-3 * Q / T_cw in
  let B := T_re / T_cw in
  let C := 0.1980E3 * T_re / Q + 168.1846E3 * (T_cw - T_re) / (T_cw * Q) in
  let COP := 1 / ((1 + C) / (B - A) - 1) in
  (forall r, calc_VCC cp T_cw m T_sup T_re = Ok r -> wdot_W r = Q / COP) /\
  (T_cw <> 0 -> Q <> 0 -> B - A <> 0 -> (1 + C) / (B - A) - 1 <> 0 ->
   exists r, calc_VCC cp T_cw m T_sup T_re = Ok r).
Proof.
  intros Hm Q A B C COP. split.
  - intros r Hr.
    pose proof (calc_VCC_returns_regular m T_sup T_re r Hm Hr) as Hreg.
    rewrite (calc_VCC_regular m T_sup T_re Hm Hreg) in Hr.
    injection Hr as <-. reflexivity.
  - intros HT HQ HBA Hratio. eexists. apply calc_VCC_regular; [exact Hm |].
    repeat split; assumption.
Qed.

(** C2.  With a positive flow and [T_re > T_sup], the returned heat
    rejection is the returned power draw plus the evaporator duty. *)
Theorem calc_VCC_energy_balance (m T_sup T_re : R) (r : chiller_operation) :
  0 < m -> T_sup < T_re ->
  calc_VCC cp T_cw m T_sup T_re = Ok r ->
  q_cw_W r = wdot_W r + m * cp * (T_re - T_sup).
Proof.
  intros Hm HT Hr.
  assert (Hm0 : m <> 0) by lra.
  pose proof (calc_VCC_returns_regular m T_sup T_re r Hm0 Hr) as Hreg.
  rewrite (calc_VCC_regular m T_sup T_re Hm0 Hreg) in Hr.
  injection Hr as <-. reflexivity.
Qed.

(** C3.  With a zero flow the function returns power 0 and heat rejection 0
    for all temperatures: the outcome is a value, no division is reached. *)
Theorem calc_VCC_idle (T_sup T_re : R) :
  calc_VCC cp T_cw 0 T_sup T_re = Ok {| wdot_W := 0; q_cw_W := 0 |}.
Proof.
  unfold calc_VCC. destruct (Req_dec_T 0 0) as [_ | N]; [reflexivity | now destruct N].
Qed.

(** C4, as amended.  With positive temperatures, [T_sup < T_re] and the
    return temperature at most the condenser inlet temperature, the
    function returns at every positive flow whose duty lies below the pole
    of the correlation ([0.0201E-3 * Q < T_re]), and there both outputs are
    strictly increasing in the flow. *)
Theorem calc_VCC_increasing_below_pole (m1 m2 T_sup T_re : R) :
  0 < cp -> 0 < T_sup -> T_sup < T_re -> T_re <= T_cw ->
  0 < m1 -> m1 < m2 ->
  0.0201E-3 * (m2 * cp * (T_re - T_sup)) < T_re ->
  exists r1 r2,
    calc_VCC cp T_cw m1 T_sup T_re = Ok r1 /\
    calc_VCC cp T_cw m2 T_sup T_re = Ok r2 /\
    wdot_W r1 < wdot_W r2 /\
    q_cw_W r1 < q_cw_W r2.
Proof.
  intros Hcp Hsup HT Hle Hm1 Hm12 Hpole.
  fold (duty m2 T_sup T_re) in Hpole.
  assert (Hre : 0 < T_re) by lra.
  pose proof (duty_positive m1 T_sup T_re Hcp Hm1 HT) as HQ1.
  pose proof (duty_increasing m1 m2 T_sup T_re Hcp Hm12 HT) as HQ12.
  assert (Hreg1 : regular T_cw (duty m1 T_sup T_re) T_re)
    by (apply regular_below_pole; lra).
  assert (Hreg2 : regular T_cw (duty m2 T_sup T_re) T_re)
    by (apply regular_below_pole; lra).
  destruct (calc_VCC_closed_form m1 T_sup T_re) as (r1 & E1 & W1 & H1);
    [lra | exact Hreg1 |].
  destruct (calc_VCC_closed_form m2 T_sup T_re) as (r2 & E2 & W2 & H2);
    [lra | exact Hreg2 |].
  exists r1, r2. split; [exact E1 |]. split; [exact E2 |].
  assert (Hw : wdot_W r1 < wdot_W r2).
  { rewrite W1, W2. apply closed_form_increasing; assumption. }
  split; [exact Hw |]. rewrite H1, H2. lra.
Qed.

(** Across the pole the power draw changes sign: positive below it,
    negative above it. *)
Lemma calc_VCC_sign_across_pole (m1 m2 T_sup T_re : R) :
  0 < cp -> 0 < T_sup -> T_sup < T_re -> T_re <= T_cw ->
  0 < m1 -> 0 < m2 ->
  0.0201E-3 * duty m1 T_sup T_re < T_re ->
  T_re < 0.0201E-3 * duty m2 T_sup T_re ->
  exists r1 r2,
    calc_VCC cp T_cw m1 T_sup T_re = Ok r1 /\
    calc_VCC cp T_cw m2 T_sup T_re = Ok r2 /\
    wdot_W r2 < 0 /\ 0 < wdot_W r1.
Proof.
  intros Hcp Hsup HT Hle Hm1 Hm2 Hbelow Habove.
  assert (Hre : 0 < T_re) by lra.
  pose proof (duty_positive m1 T_sup T_re Hcp Hm1 HT) as HQ1.
  pose proof (duty_positive m2 T_sup T_re Hcp Hm2 HT) as HQ2.
  destruct (calc_VCC_closed_form m1 T_sup T_re) as (r1 & E1 & W1 & _);
    [lra | apply regular_below_pole; assumption |].
  destruct (calc_VCC_closed_form m2 T_sup T_re) as (r2 & E2 & W2 & _);
    [lra | apply regular_above_pole; assumption |].
  exists r1, r2. split; [exact E1 |]. split; [exact E2 |].
  rewrite W1, W2. split.
  - apply closed_form_negative_above_pole; assumption.
  - apply closed_form_positive_below_pole; assumption.
Qed.

End TechnicalModelFacts.

(** *** The reference operating point

    10 kg/s between 280.15 K and 286.15 K, with [c_p = 4187] J/(kg K) and a
    condenser inlet temperature of 303 K: a duty of 251220 W. *)

Lemma reference_point_regular :
  regular 303 (evaporator_duty 4187 10 280.15 286.15) 286.15.
Proof.
  apply regular_below_pole; unfold evaporator_duty; lra.
Qed.

Lemma calc_VCC_power_draw_witness :
  10 <> 0 /\
  exists r,
    calc_VCC 4187 303 10 280.15 286.15 = Ok r /\
    wdot_W r = 251220 / spec_COP 303 251220 286.15.
Proof.
  split; [lra |].
  destruct (calc_VCC_power_draw 4187 303 10 280.15 286.15) as [Hvalue Hreturns]; [lra |].
  destruct reference_point_regular as (HT & HQ & HBA & Hratio).
  destruct (Hreturns HT HQ HBA Hratio) as [r Hr].
  exists r. split; [exact Hr |].
  rewrite (Hvalue r Hr). unfold spec_COP, term_A, term_B, term_C.
  replace (10 * 4187 * (286.15 - 280.15)) with 251220 by lra.
  reflexivity.
Defined.

Lemma calc_VCC_energy_balance_witness :
  exists r,
    calc_VCC 4187 303 10 280.15 286.15 = Ok r /\
    q_cw_W r = wdot_W r + 251220.
Proof.
  destruct (calc_VCC_closed_form 4187 303 10 280.15 286.15) as (r & Hr & _ & _);
    [lra | exact reference_point_regular |].
  exists r. split; [exact Hr |].
  rewrite (calc_VCC_energy_balance 4187 303 10 280.15 286.15 r); [lra | lra | lra | exact Hr].
Defined.

Lemma calc_VCC_increasing_below_pole_witness :
  exists r1 r2,
    calc_VCC 4187 303 10 280.15 286.15 = Ok r1 /\
    calc_VCC 4187 303 20 280.15 286.15 = Ok r2 /\
    wdot_W r1 < wdot_W r2 /\
    q_cw_W r1 < q_cw_W r2.
Proof.
  apply (calc_VCC_increasing_below_pole 4187 303 10 20 280.15 286.15); lra.
Defined.

(** C4, as stated, fails: at 280.15 K / 286.15 K a flow of 1000 kg/s has a
    duty above the pole, where the power draw is negative, while at 10 kg/s
    it is positive. *)
Lemma calc_VCC_not_increasing_across_pole :
  ~ strictly_increasing_in_flow 4187 303.
Proof.
  intros Hmono.
  destruct (calc_VCC_sign_across_pole 4187 303 10 1000 280.15 286.15)
    as (r1 & r2 & E1 & E2 & Hneg & Hpos);
    try (unfold evaporator_duty; lra).
  destruct (Hmono 280.15 286.15 10 1000 r1 r2) as [Hw _]; try lra; try assumption.
Qed.

(** ** The investment costs *)

Lemma in_bracket_iff (q : R) (r : row) :
  in_bracket q r = true <-> bracket_contains r q.
Proof.
  unfold in_bracket, bracket_contains, Rleb, Rgtb.
  destruct (Rle_dec (cap_min r) q) as [Hle | Hle];
    destruct (Rgt_dec (cap_max r) q) as [Hgt | Hgt]; simpl; split;
    try discriminate; try (intros [H1 H2]); try (split; lra); try reflexivity;
    try (exfalso; apply Hle; exact H1); exfalso; apply Hgt; exact H2.
Qed.

Lemma not_in_bracket_iff (q : R) (r : row) :
  in_bracket q r = false <-> ~ bracket_contains r q.
Proof.
  rewrite <- in_bracket_iff. destruct (in_bracket q r); split; intros H.
  - discriminate H.
  - exfalso. apply H. reflexivity.
  - discriminate.
  - reflexivity.
Qed.

(** [iloc[0]] of the masked frame is the first row whose bracket contains
    the capacity. *)
Lemma iloc0_select_bracket (frame : DataFrame) (q : R) (r : row) :
  iloc0 (select_bracket frame q) = Ok r <-> first_in_bracket frame q r.
Proof.
  unfold select_bracket, first_in_bracket. induction frame as [| x frame IH]; simpl.
  - split; [discriminate |]. intros (before & after & E & _). destruct before; discriminate E.
  - destruct (in_bracket q x) eqn:Hx; simpl.
    + split.
      * intros H. injection H as <-. exists [], frame. simpl.
        split; [reflexivity |]. split; [apply in_bracket_iff; exact Hx | constructor].
      * intros (before & after & E & Hr & Hbefore). destruct before as [| y before]; simpl in E.
        -- injection E as -> _. reflexivity.
        -- injection E as -> _. inversion Hbefore as [| ? ? Hy _]; subst.
           exfalso. apply Hy. apply in_bracket_iff. exact Hx.
    + rewrite IH. split.
      * intros (before & after & E & Hr & Hbefore). exists (x :: before), after. simpl.
        split; [rewrite E; reflexivity |]. split; [exact Hr |].
        constructor; [apply not_in_bracket_iff; exact Hx | exact Hbefore].
      * intros (before & after & E & Hr & Hbefore). destruct before as [| y before]; simpl in E.
        -- injection E as -> _. exfalso. apply not_in_bracket_iff in Hx. apply Hx. exact Hr.
        -- injection E as -> ->. exists before, after.
           split; [reflexivity |]. split; [exact Hr |]. inversion Hbefore; assumption.
Qed.

(** No row contains the capacity: the positional lookup fails. *)
Lemma iloc0_select_bracket_none (frame : DataFrame) (q : R) :
  (forall r, In r frame -> ~ bracket_contains r q) ->
  iloc0 (select_bracket frame q) = Err IndexError.
Proof.
  unfold select_bracket. induction frame as [| x frame IH]; simpl; intros H.
  - reflexivity.
  - assert (Hx : in_bracket q x = false) by (apply not_in_bracket_iff, H; left; reflexivity).
    rewrite Hx. apply IH. intros r Hr. apply H. right. exact Hr.
Qed.

Lemma clamp_capacity_positive (q : R) (least : number) :
  q > 0 -> clamp_capacity q least > 0.
Proof.
  intros Hq. unfold clamp_capacity. destruct (Rlt_dec q least); cbn [value]; lra.
Qed.

Lemma clamp_capacity_below (q : R) (least : number) :
  q < least -> clamp_capacity q least = least.
Proof.
  intros Hq. unfold clamp_capacity. destruct (Rlt_dec q least); [reflexivity | contradiction].
Qed.

Lemma clamp_capacity_above (q : R) (least : number) :
  least <= q -> clamp_capacity q least = float64 q.
Proof.
  intros Hq. unfold clamp_capacity. destruct (Rlt_dec q least); [lra | reflexivity].
Qed.

(** A capacity that is not replaced stays a float, for which line 105 is
    float arithmetic. *)
Lemma integer_safe_float (r : row) (x : R) : integer_safe r (float64 x).
Proof.
  exact I.
Qed.

Lemma py_pow_positive (x y : R) : 0 < x -> py_pow x y = Ok (Rpower x y).
Proof.
  intros Hx. unfold py_pow. destruct (Rlt_dec 0 x); [reflexivity | contradiction].
Qed.

Lemma py_log_positive (x : R) : 0 < x -> py_log x = Ok (ln x).
Proof.
  intros Hx. unfold py_log. destruct (Rlt_dec 0 x); [reflexivity | contradiction].
Qed.

Lemma wrap64_fits (z : Z) : fits z -> wrap64 z = z.
Proof.
  unfold fits, wrap64. intros Hz.
  rewrite Z.mod_small by lia. lia.
Qed.

(** The float power of a positive whole number by a whole exponent is the
    integer power. *)
Lemma Rpower_IZR (z k : Z) : (0 < z)%Z -> (0 <= k)%Z -> Rpower (IZR z) (IZR k) = IZR (z ^ k).
Proof.
  intros Hz Hk.
  rewrite <- (Z2Nat.id k Hk) at 1. rewrite <- INR_IZR_INZ.
  rewrite Rpower_pow by (apply IZR_lt; exact Hz).
  rewrite pow_IZR. rewrite Z2Nat.id by exact Hk. reflexivity.
Qed.

Ltac settle_cells :=
  repeat match goal with
         | H : _ /\ _ |- _ => destruct H
         | H : fits ?z |- context [wrap64 ?z] => rewrite (wrap64_fits z H)
         end.

(** Line 105 in range: the power is taken and the value of [InvC] is the
    curve of the specification. *)
Lemma line_105_exact (r : row) (q : number) (logarithm : R) :
  q > 0 ->
  integer_safe r q ->
  exists power,
    num_pow q (col_c r) = Ok power /\
    value (col_a r +# col_b r *# power +# (col_d r +# col_e r *# q) *# float64 logarithm)
    = col_a r + col_b r * Rpower q (col_c r) + (col_d r + col_e r * q) * logarithm.
Proof.
  intros Hq Hsafe. unfold integer_safe in Hsafe.
  destruct q as [z | x]; cbn [value] in Hq.
  - assert (Hz : (0 < z)%Z) by (apply lt_IZR; exact Hq).
    destruct (col_c r) as [c | c]; destruct (col_b r) as [b | b];
      destruct (col_a r) as [a | a]; destruct (col_e r) as [e | e];
      destruct (col_d r) as [d | d]; settle_cells; cbn [num_pow].
    all: try (match goal with H : (0 <= ?c)%Z |- context [(?c <? 0)%Z] =>
                let E := fresh in assert (E : (c <? 0)%Z = false) by (apply Z.ltb_ge; exact H);
                rewrite E end).
    all: try rewrite (py_pow_positive (IZR z)) by exact Hq.
    all: cbn [bind]; eexists; (split; [reflexivity |]).
    all: settle_cells; cbn [num_add num_mul value]; settle_cells; cbn [value].
    all: rewrite ?plus_IZR, ?mult_IZR, ?Rpower_IZR by assumption; try reflexivity.
  - destruct (col_c r) as [c | c]; destruct (col_b r) as [b | b];
      destruct (col_a r) as [a | a]; destruct (col_e r) as [e | e];
      destruct (col_d r) as [d | d]; cbn [num_pow value].
    all: rewrite (py_pow_positive x) by exact Hq.
    all: cbn [bind]; eexists; (split; [reflexivity |]); reflexivity.
Qed.

(** The cost curve in range: line 105 yields the curve of the
    specification, and the annualisation follows. *)
Lemma cost_curve_exact (r : row) (q : number) :
  q > 0 ->
  integer_safe r q ->
  cost_curve r q
  = (growth <- py_pow (1 + IR_pct r / 100) (LT_yr r) ;;
     Capex_a <- spec_InvC r q * (IR_pct r / 100) * growth /? (growth - 1) ;;
     Ok (Capex_a, Capex_a * (OM_pct r / 100))).
Proof.
  intros Hq Hsafe. unfold cost_curve.
  destruct (line_105_exact r q (ln q) Hq Hsafe) as (power & Hpower & Hvalue).
  rewrite Hpower, py_log_positive by lra. cbn [bind].
  rewrite Hvalue. reflexivity.
Qed.

(** The cost curve of a row at a positive capacity in range, when
    [(1+IR)^LT] has the value [growth] different from 1. *)
Lemma cost_curve_value (r : row) (q : number) (growth : R) :
  q > 0 ->
  integer_safe r q ->
  py_pow (1 + IR_pct r / 100) (LT_yr r) = Ok growth ->
  growth - 1 <> 0 ->
  cost_curve r q = Ok (spec_Capex_a r q growth, spec_Opex_fixed r q growth).
Proof.
  intros Hq Hsafe Hgrowth Hne.
  rewrite (cost_curve_exact r q Hq Hsafe), Hgrowth. cbn [bind].
  rewrite fdiv_ok by exact Hne. reflexivity.
Qed.

(** In range, the cost of an integer capacity is the cost of the same
    capacity held as a float. *)
Lemma cost_curve_as_float (r : row) (q : number) :
  q > 0 ->
  integer_safe r q ->
  cost_curve r q = cost_curve r (float64 q).
Proof.
  intros Hq Hsafe.
  rewrite (cost_curve_exact r q Hq Hsafe).
  rewrite (cost_curve_exact r (float64 q) Hq (integer_safe_float r q)).
  reflexivity.
Qed.

Section InvestmentCostsFacts.

Variable list_set : list string -> list string.

(** The function past the table read, the index lookup and the label
    lookup: clamp, select, evaluate. *)
Lemma calc_Cinv_VCC_loaded (qcold_W : R) (first : row) (rest : DataFrame)
      (technology : Z) (selected : string) :
  qcold_W > 0 ->
  list_getitem (list_set (map code (first :: rest))) technology = Ok selected ->
  calc_Cinv_VCC list_set qcold_W (Some (first :: rest)) technology
  = ([ReadExcel],
     r <- iloc0 (select_bracket (first :: rest) (clamp_capacity qcold_W (cap_min first))) ;;
     cost_curve r (clamp_capacity qcold_W (cap_min first))).
Proof.
  intros Hq Hsel. unfold calc_Cinv_VCC.
  destruct (Rgt_dec qcold_W 0) as [_ | N]; [| contradiction].
  cbn [bind]. rewrite Hsel. reflexivity.
Qed.

Lemma calc_Cinv_VCC_first_match (qcold_W : R) (first : row) (rest : DataFrame)
      (technology : Z) (selected : string) (r : row) :
  qcold_W > 0 ->
  list_getitem (list_set (map code (first :: rest))) technology = Ok selected ->
  first_in_bracket (first :: rest) (clamp_capacity qcold_W (cap_min first)) r ->
  calc_Cinv_VCC list_set qcold_W (Some (first :: rest)) technology
  = ([ReadExcel], cost_curve r (clamp_capacity qcold_W (cap_min first))).
Proof.
  intros Hq Hsel Hrow.
  rewrite (calc_Cinv_VCC_loaded qcold_W first rest technology selected Hq Hsel).
  apply iloc0_select_bracket in Hrow. rewrite Hrow. reflexivity.
Qed.

(** An index outside the list of codes: the outcome is an index error. *)
Lemma calc_Cinv_VCC_bad_index (qcold_W : R) (frame : DataFrame) (technology : Z) (e : error) :
  qcold_W > 0 ->
  list_getitem (list_set (map code frame)) technology = Err e ->
  calc_Cinv_VCC list_set qcold_W (Some frame) technology = ([ReadExcel], Err IndexError).
Proof.
  intros Hq Ht. unfold calc_Cinv_VCC.
  destruct (Rgt_dec qcold_W 0) as [_ | N]; [| contradiction].
  cbn [bind]. rewrite Ht.
  unfold list_getitem in Ht.
  destruct ((0 <=? _)%Z && _)%bool; [destruct (nth_error _ _) |];
    try discriminate; injection Ht as <-; reflexivity.
Qed.

(** What lines 93-94 do: a capacity below [cap_min] at the label 0 is
    replaced by that cell.  The outcome is that of the first row's
    [cap_min] given as input, a float, as long as line 105 is in range on
    the cell for the row that is selected. *)
Lemma calc_Cinv_VCC_clamps_to_label0 (qcold_W : R) (first : row) (rest : DataFrame)
      (technology : Z) :
  qcold_W > 0 -> qcold_W < cap_min first ->
  (forall r, first_in_bracket (first :: rest) (cap_min first) r ->
             integer_safe r (cap_min first)) ->
  calc_Cinv_VCC list_set qcold_W (Some (first :: rest)) technology
  = calc_Cinv_VCC list_set (cap_min first) (Some (first :: rest)) technology.
Proof.
  intros Hq Hlt Hsafe. unfold calc_Cinv_VCC.
  destruct (Rgt_dec qcold_W 0) as [_ | N]; [| contradiction].
  destruct (Rgt_dec (cap_min first) 0) as [_ | N]; [| lra].
  cbn [bind map label0].
  rewrite (clamp_capacity_below qcold_W (cap_min first) Hlt).
  rewrite (clamp_capacity_above (cap_min first) (cap_min first)) by lra.
  f_equal.
  destruct (list_getitem (list_set (code first :: map code rest)) technology) as [c | e];
    cbn [bind]; [| reflexivity].
  cbn [value].
  destruct (iloc0 (select_bracket (first :: rest) (cap_min first))) as [r | e] eqn:Hr;
    cbn [bind]; [| reflexivity].
  apply iloc0_select_bracket in Hr.
  apply cost_curve_as_float; [lra | apply Hsafe; exact Hr].
Qed.

(** C5.  For a peak capacity [Q_peak <= 0] the function returns (0, 0)
    whatever the table holds, readable or not, and whatever the technology
    index: its trace of reads is empty. *)
Theorem calc_Cinv_VCC_no_demand (qcold_W : R) (locator : option DataFrame) (technology : Z) :
  qcold_W <= 0 ->
  calc_Cinv_VCC list_set qcold_W locator technology = ([], Ok (0, 0)).
Proof.
  intros Hq. unfold calc_Cinv_VCC.
  destruct (Rgt_dec qcold_W 0) as [Hpos | _]; [lra | reflexivity].
Qed.

(** X18.  For [Q_peak > 0], when a bracket row [r] is found for the
    (possibly clamped) capacity [q], line 105 is in range on [r] and [q]
    (as it is for every capacity that is not replaced by an integer cell)
    and [(1+IR)^LT] has a value [growth] other than 1, the function
    returns [Capex_a = InvC * IR * growth / (growth - 1)] with
    [InvC = a + b * q^c + (d + e * q) * ln q] on the coefficients of [r],
    and [Opex_fixed = Capex_a * OM]; [growth] is [exp (LT * ln (1+IR))]
    for a positive base. *)
Theorem calc_Cinv_VCC_cost_formula (qcold_W : R) (first : row) (rest : DataFrame)
        (technology : Z) (selected : string) (r : row) (growth : R) :
  qcold_W > 0 ->
  list_getitem (list_set (map code (first :: rest))) technology = Ok selected ->
  let q := clamp_capacity qcold_W (cap_min first) in
  first_in_bracket (first :: rest) q r ->
  integer_safe r q ->
  let IR := IR_pct r / 100 in
  let OM := OM_pct r / 100 in
  py_pow (1 + IR) (LT_yr r) = Ok growth ->
  growth - 1 <> 0 ->
  let InvC := col_a r + col_b r * Rpower q (col_c r) + (col_d r + col_e r * q) * ln q in
  let Capex_a := InvC * IR * growth / (growth - 1) in
  calc_Cinv_VCC list_set qcold_W (Some (first :: rest)) technology
  = ([ReadExcel], Ok (Capex_a, Capex_a * OM))
  /\ (0 < 1 + IR -> growth = Rpower (1 + IR) (LT_yr r)).
Proof.
  intros Hq Hsel q Hrow Hsafe IR OM Hgrowth Hne InvC Capex_a. split.
  - rewrite (calc_Cinv_VCC_loaded qcold_W first rest technology selected Hq Hsel).
    fold q. apply iloc0_select_bracket in Hrow. rewrite Hrow. cbn [bind].
    rewrite (cost_curve_value r q growth);
      [reflexivity | apply clamp_capacity_positive; exact Hq | exact Hsafe
       | exact Hgrowth | exact Hne].
  - intros Hbase. rewrite py_pow_positive in Hgrowth by exact Hbase.
    injection Hgrowth as <-. reflexivity.
Qed.

(** C7.  The cost-curve row is the first row of the table whose bracket
    contains the (possibly clamped) capacity [q], read as
    [cap_min <= q < cap_max]; without such a row the lookup fails.  At a
    boundary shared by two adjacent rows the upper one, whose [cap_min] is
    [q], is taken. *)
Theorem calc_Cinv_VCC_bracket_selection (qcold_W : R) (first : row) (rest : DataFrame)
        (technology : Z) (selected : string) :
  qcold_W > 0 ->
  list_getitem (list_set (map code (first :: rest))) technology = Ok selected ->
  let frame := first :: rest in
  let q := clamp_capacity qcold_W (cap_min first) in
  let outcome := calc_Cinv_VCC list_set qcold_W (Some frame) technology in
  (forall r, iloc0 (select_bracket frame q) = Ok r <->
             first_in_bracket frame q r) /\
  (forall r, first_in_bracket frame q r ->
             cap_min r <= q < cap_max r /\ outcome = ([ReadExcel], cost_curve r q)) /\
  ((forall r, In r frame -> ~ (cap_min r <= q < cap_max r)) ->
   outcome = ([ReadExcel], Err IndexError)) /\
  (forall before lower upper after,
      frame = before ++ lower :: upper :: after ->
      Forall (fun r' => ~ (cap_min r' <= q < cap_max r')) before ->
      cap_max lower = q :> R -> cap_min upper = q :> R -> q < cap_max upper ->
      outcome = ([ReadExcel], cost_curve upper q)).
Proof.
  intros Hq Hsel frame q outcome.
  assert (Hout : outcome
                 = ([ReadExcel], r <- iloc0 (select_bracket frame q) ;; cost_curve r q))
    by (apply (calc_Cinv_VCC_loaded qcold_W first rest technology selected Hq Hsel)).
  assert (Hfirst : forall r, first_in_bracket frame q r ->
                             outcome = ([ReadExcel], cost_curve r q)).
  { intros r Hr. rewrite Hout. apply iloc0_select_bracket in Hr. rewrite Hr. reflexivity. }
  split; [intros r; apply iloc0_select_bracket |].
  split.
  { intros r Hr. split; [| apply Hfirst; exact Hr].
    destruct Hr as (_ & _ & _ & Hin & _). exact Hin. }
  split.
  { intros Hnone. rewrite Hout, iloc0_select_bracket_none by exact Hnone. reflexivity. }
  intros before lower upper after E Hbefore Hlower Hupper Hmax.
  apply Hfirst. exists (before ++ [lower]), after.
  split; [rewrite E, <- app_assoc; reflexivity |].
  split; [unfold bracket_contains; lra |].
  apply Forall_app. split; [exact Hbefore |].
  constructor; [unfold bracket_contains; lra | constructor].
Qed.

(** C10.  For [Q_peak > 0] and a fixed table, the returned trace and costs
    are the same for any two technology indices that are valid for the
    list of distinct codes; an index can only turn the outcome into an
    index error. *)
Theorem calc_Cinv_VCC_ignores_technology (qcold_W : R) (frame : DataFrame)
        (t1 t2 : Z) (code1 code2 : string) :
  qcold_W > 0 ->
  list_getitem (list_set (map code frame)) t1 = Ok code1 ->
  list_getitem (list_set (map code frame)) t2 = Ok code2 ->
  calc_Cinv_VCC list_set qcold_W (Some frame) t1
  = calc_Cinv_VCC list_set qcold_W (Some frame) t2
  /\ (forall t,
        calc_Cinv_VCC list_set qcold_W (Some frame) t
        = calc_Cinv_VCC list_set qcold_W (Some frame) t1
        \/ calc_Cinv_VCC list_set qcold_W (Some frame) t = ([ReadExcel], Err IndexError)).
Proof.
  intros Hq H1 H2. unfold calc_Cinv_VCC.
  destruct (Rgt_dec qcold_W 0) as [_ | N]; [| contradiction].
  cbn [bind]. rewrite H1, H2. split; [reflexivity |].
  intros t. destruct (list_getitem (list_set (map code frame)) t) as [c | e] eqn:Ht.
  - left. reflexivity.
  - right. pose proof (calc_Cinv_VCC_bad_index qcold_W frame t e Hq Ht) as Hbad.
    unfold calc_Cinv_VCC in Hbad.
    destruct (Rgt_dec qcold_W 0) as [_ | N]; [| contradiction].
    cbn [bind] in Hbad. rewrite Ht in *. exact Hbad.
Qed.

End InvestmentCostsFacts.

(** *** The sample tables evaluated *)

Lemma sample_growth : py_pow (1 + 100 / 100) 1 = Ok 2.
Proof.
  rewrite py_pow_positive by lra. rewrite Rpower_1 by lra. f_equal. lra.
Qed.

Lemma sample_cost_curve (technology : string) (lo hi a : Z) (q : number) :
  q > 0 ->
  integer_safe (sample_row technology lo hi a) q ->
  cost_curve (sample_row technology lo hi a) q
  = Ok (2 * (IZR a + q), (IZR a + q) / 5).
Proof.
  intros Hq Hsafe.
  rewrite (cost_curve_value (sample_row technology lo hi a) q 2 Hq Hsafe sample_growth) by lra.
  unfold spec_Opex_fixed, spec_Capex_a, spec_InvC, sample_row.
  cbn [col_a col_b col_c col_d col_e IR_pct OM_pct value].
  rewrite Rpower_1 by lra. f_equal. f_equal; field.
Qed.

(** The sample rows are in range on small integer capacities. *)
Lemma sample_row_safe (technology : string) (lo hi a z : Z) :
  (0 <= a <= 1000000)%Z -> (0 <= z <= 1000000)%Z ->
  integer_safe (sample_row technology lo hi a) (int64 z).
Proof.
  intros Ha Hz. unfold integer_safe, sample_row, fits.
  cbn [col_a col_b col_c col_d col_e]. rewrite Z.pow_1_r. lia.
Qed.

Lemma first_row_in_bracket (first : row) (rest : DataFrame) (q : R) :
  cap_min first <= q < cap_max first ->
  first_in_bracket (first :: rest) q first.
Proof.
  intros H. exists [], rest. split; [reflexivity |]. split; [exact H | constructor].
Qed.

Lemma calc_Cinv_VCC_no_demand_witness :
  -5 <= 0 /\ calc_Cinv_VCC sheet_order (-5) None 1 = ([], Ok (0, 0)).
Proof.
  split; [lra |]. apply calc_Cinv_VCC_no_demand. lra.
Defined.

Lemma calc_Cinv_VCC_cost_formula_witness :
  calc_Cinv_VCC sheet_order 50 (Some one_technology) 0 = ([ReadExcel], Ok (2100, 210)).
Proof.
  assert (Hq : clamp_capacity 50 (cap_min small_chiller) = float64 50)
    by (apply clamp_capacity_above; simpl; lra).
  destruct (calc_Cinv_VCC_cost_formula sheet_order 50 small_chiller [large_chiller]
              0 "CH1"%string small_chiller 2) as [Hcosts _].
  - lra.
  - reflexivity.
  - apply first_row_in_bracket. rewrite Hq. simpl. lra.
  - rewrite Hq. exact I.
  - exact sample_growth.
  - lra.
  - rewrite Hq in Hcosts. etransitivity; [exact Hcosts |].
    cbn [small_chiller sample_row col_a col_b col_c col_d col_e IR_pct OM_pct value].
    rewrite Rpower_1 by lra. do 2 f_equal. f_equal; field.
Defined.

Lemma calc_Cinv_VCC_bracket_selection_witness :
  calc_Cinv_VCC sheet_order 100 (Some one_technology) 0
  = ([ReadExcel], cost_curve large_chiller (float64 100))
  /\ cost_curve large_chiller (float64 100) = Ok (10200, 1020).
Proof.
  assert (Hq : clamp_capacity 100 (cap_min small_chiller) = float64 100)
    by (apply clamp_capacity_above; simpl; lra).
  destruct (calc_Cinv_VCC_bracket_selection sheet_order 100 small_chiller [large_chiller]
              0 "CH1"%string) as (_ & _ & _ & Hboundary).
  - lra.
  - reflexivity.
  - split.
    + rewrite <- Hq.
      apply (Hboundary [] small_chiller large_chiller []).
      * reflexivity.
      * constructor.
      * rewrite Hq. reflexivity.
      * rewrite Hq. reflexivity.
      * rewrite Hq. simpl. lra.
    + unfold large_chiller.
      rewrite sample_cost_curve; [| cbn [value]; lra | exact I].
      cbn [value]. f_equal. f_equal; lra.
Defined.

Lemma calc_Cinv_VCC_ignores_technology_witness :
  calc_Cinv_VCC sheet_order 50 (Some two_technologies) 0
  = calc_Cinv_VCC sheet_order 50 (Some two_technologies) 1.
Proof.
  apply (calc_Cinv_VCC_ignores_technology sheet_order 50 two_technologies 0 1
           "CH1"%string "CH2"%string).
  - lra.
  - reflexivity.
  - reflexivity.
Defined.

(** Whatever the iteration order of the set of codes and whatever the
    index, the outcome is the cost of the first row in the bracket, or an
    index error. *)
Lemma calc_Cinv_VCC_outcomes (list_set : list string -> list string) (qcold_W : R)
      (first : row) (rest : DataFrame) (technology : Z) (r : row) :
  qcold_W > 0 ->
  first_in_bracket (first :: rest) (clamp_capacity qcold_W (cap_min first)) r ->
  calc_Cinv_VCC list_set qcold_W (Some (first :: rest)) technology
  = ([ReadExcel], cost_curve r (clamp_capacity qcold_W (cap_min first)))
  \/ calc_Cinv_VCC list_set qcold_W (Some (first :: rest)) technology
     = ([ReadExcel], Err IndexError).
Proof.
  intros Hq Hrow.
  destruct (list_getitem (list_set (map code (first :: rest))) technology) as [c | e] eqn:Ht.
  - left. apply (calc_Cinv_VCC_first_match list_set qcold_W first rest technology c r Hq Ht Hrow).
  - right. apply (calc_Cinv_VCC_bad_index list_set qcold_W (first :: rest) technology e Hq Ht).
Qed.

Lemma table_minimum_le_first (first : row) (rest : DataFrame) :
  table_minimum first rest <= cap_min first.
Proof.
  destruct rest as [| r rest]; simpl; [lra | apply Rmin_l].
Qed.

(** A capacity below the smallest [cap_min] gives the outcome of that
    smallest [cap_min] as input: both are replaced by [cap_min] at the
    label 0, or the second is that [cap_min] held as a float, which costs
    the same as long as line 105 is in range on the cell. *)
Lemma calc_Cinv_VCC_below_table_minimum (list_set : list string -> list string)
      (qcold_W : R) (first : row) (rest : DataFrame) (technology : Z) :
  qcold_W > 0 -> qcold_W < table_minimum first rest ->
  (forall r, first_in_bracket (first :: rest) (cap_min first) r ->
             integer_safe r (cap_min first)) ->
  calc_Cinv_VCC list_set qcold_W (Some (first :: rest)) technology
  = calc_Cinv_VCC list_set (table_minimum first rest) (Some (first :: rest)) technology.
Proof.
  intros Hq Hlt Hsafe.
  pose proof (table_minimum_le_first first rest) as Hle.
  rewrite (calc_Cinv_VCC_clamps_to_label0 list_set qcold_W first rest technology)
    by (lra || exact Hsafe).
  destruct (Rle_lt_or_eq_dec _ _ Hle) as [Hstrict | Heq].
  - rewrite (calc_Cinv_VCC_clamps_to_label0 list_set (table_minimum first rest) first rest technology)
      by (lra || exact Hsafe).
    reflexivity.
  - rewrite Heq. reflexivity.
Qed.

(** C8 on the code.  In the table [big_units_first] the smallest [cap_min]
    is 10, in the second row.  A peak capacity of 5 is replaced by 100, the
    [cap_min] of the first row, and costed on the first row, (10200, 1020);
    the row whose bracket contains the table minimum gives (2020, 202)
    there. *)
Theorem calc_Cinv_VCC_clamps_to_first_row :
  table_minimum big_units [small_units] = 10
  /\ clamp_capacity 5 (cap_min big_units) = int64 100
  /\ (forall list_set technology,
        calc_Cinv_VCC list_set 5 (Some big_units_first) technology
        = ([ReadExcel], Ok (10200, 1020))
        \/ calc_Cinv_VCC list_set 5 (Some big_units_first) technology
           = ([ReadExcel], Err IndexError))
  /\ calc_Cinv_VCC sheet_order 5 (Some big_units_first) 1 = ([ReadExcel], Ok (10200, 1020))
  /\ (r <- iloc0 (select_bracket big_units_first 10) ;; cost_curve r (int64 10))
     = Ok (2020, 202).
Proof.
  assert (Hq : clamp_capacity 5 (cap_min big_units) = int64 100)
    by (apply clamp_capacity_below; simpl; lra).
  assert (Hrow : first_in_bracket (big_units :: [small_units])
                   (clamp_capacity 5 (cap_min big_units)) big_units)
    by (apply first_row_in_bracket; rewrite Hq; simpl; lra).
  assert (Hcost : cost_curve big_units (clamp_capacity 5 (cap_min big_units))
                  = Ok (10200, 1020)).
  { rewrite Hq. unfold big_units.
    rewrite sample_cost_curve; [| cbn [value]; lra | apply sample_row_safe; lia].
    cbn [value]. f_equal. f_equal; lra. }
  split.
  { simpl. unfold Rmin. destruct (Rle_dec 100 10) as [H | _]; [lra | reflexivity]. }
  split; [exact Hq |].
  split.
  { intros list_set technology.
    destruct (calc_Cinv_VCC_outcomes list_set 5 big_units [small_units] technology big_units)
      as [H | H]; [lra | exact Hrow | left | right; exact H].
    rewrite <- Hcost. exact H. }
  split.
  { rewrite <- Hcost.
    apply (calc_Cinv_VCC_first_match sheet_order 5 big_units [small_units] 1 "CH2"%string);
      [lra | reflexivity | exact Hrow]. }
  assert (Hsmall : iloc0 (select_bracket big_units_first 10) = Ok small_units).
  { apply iloc0_select_bracket. exists [big_units], []. split; [reflexivity |].
    split; [unfold bracket_contains; simpl; lra |].
    constructor; [unfold bracket_contains; simpl; lra | constructor]. }
  rewrite Hsmall. cbn [bind]. unfold small_units.
  rewrite sample_cost_curve; [| cbn [value]; lra | apply sample_row_safe; lia].
  cbn [value]. f_equal. f_equal; lra.
Qed.

(** C9 on the code.  In the table [two_technologies] both rows cover the
    capacity 50.  With the index 1 the selected code is "CH2", yet the
    costs returned, (2100, 210), are those of the "CH1" row, the first in
    sheet order; the "CH2" row gives (4100, 410).  No iteration order of
    the set of codes and no index gives the costs of the "CH2" row. *)
Theorem calc_Cinv_VCC_filter_dropped :
  list_getitem (sheet_order (map code two_technologies)) 1 = Ok "CH2"%string
  /\ calc_Cinv_VCC sheet_order 50 (Some two_technologies) 1 = ([ReadExcel], Ok (2100, 210))
  /\ code first_technology = "CH1"%string
  /\ cost_curve first_technology (float64 50) = Ok (2100, 210)
  /\ cost_curve second_technology (float64 50) = Ok (4100, 410)
  /\ (forall list_set technology,
        calc_Cinv_VCC list_set 50 (Some two_technologies) technology
        = ([ReadExcel], Ok (2100, 210))
        \/ calc_Cinv_VCC list_set 50 (Some two_technologies) technology
           = ([ReadExcel], Err IndexError)).
Proof.
  assert (Hq : clamp_capacity 50 (cap_min first_technology) = float64 50)
    by (apply clamp_capacity_above; simpl; lra).
  assert (Hrow : first_in_bracket (first_technology :: [second_technology])
                   (clamp_capacity 50 (cap_min first_technology)) first_technology)
    by (apply first_row_in_bracket; rewrite Hq; simpl; lra).
  assert (Hfirst : cost_curve first_technology (float64 50) = Ok (2100, 210)).
  { unfold first_technology.
    rewrite sample_cost_curve; [| cbn [value]; lra | exact I].
    cbn [value]. f_equal. f_equal; lra. }
  assert (Hcost : cost_curve first_technology (clamp_capacity 50 (cap_min first_technology))
                  = Ok (2100, 210))
    by (rewrite Hq; exact Hfirst).
  split; [reflexivity |].
  split.
  { rewrite <- Hcost.
    apply (calc_Cinv_VCC_first_match sheet_order 50 first_technology [second_technology]
             1 "CH2"%string); [lra | reflexivity | exact Hrow]. }
  split; [reflexivity |].
  split; [exact Hfirst |].
  split.
  { unfold second_technology.
    rewrite sample_cost_curve; [| cbn [value]; lra | exact I].
    cbn [value]. f_equal. f_equal; lra. }
  intros list_set technology.
  destruct (calc_Cinv_VCC_outcomes list_set 50 first_technology [second_technology]
              technology first_technology) as [H | H]; [lra | exact Hrow | left | right; exact H].
  rewrite <- Hcost. exact H.
Qed.

(** *** Sheets of whole numbers *)

Lemma cubic_row_selected :
  first_in_bracket (cubic_row :: []) (int64 3000000) cubic_row.
Proof.
  apply first_row_in_bracket. simpl. lra.
Qed.

(** The cubic curve at the integer capacity 3000000: [3000000 ** 3]
    exceeds 2^63 and wraps to 8553255926290448384. *)
Lemma cubic_wrapped :
  cost_curve cubic_row (int64 3000000)
  = Ok (17106511852580896768, 17106511852580896768 / 10).
Proof.
  unfold cost_curve, cubic_row.
  cbn [col_a col_b col_c col_d col_e IR_pct LT_yr OM_pct].
  cbn [num_pow Z.ltb Z.compare bind].
  replace (wrap64 (3000000 ^ 3)) with 8553255926290448384%Z by (vm_compute; reflexivity).
  rewrite py_log_positive by (cbn [value]; lra). cbn [bind].
  cbn [num_mul num_add value].
  replace (wrap64 (1 * 8553255926290448384)) with 8553255926290448384%Z
    by (vm_compute; reflexivity).
  replace (wrap64 (0 + 8553255926290448384)) with 8553255926290448384%Z
    by (vm_compute; reflexivity).
  replace (wrap64 (0 * 3000000)) with 0%Z by (vm_compute; reflexivity).
  replace (wrap64 (0 + 0)) with 0%Z by (vm_compute; reflexivity).
  cbn [value].
  rewrite sample_growth. cbn [bind].
  rewrite fdiv_ok by lra. cbn [bind]. f_equal. f_equal; field.
Qed.

(** The curve of the specification there. *)
Lemma cubic_formula :
  spec_Capex_a cubic_row 3000000 2 = 54000000000000000000
  /\ spec_Opex_fixed cubic_row 3000000 2 = 5400000000000000000.
Proof.
  unfold spec_Opex_fixed, spec_Capex_a, spec_InvC, cubic_row.
  cbn [col_a col_b col_c col_d col_e IR_pct OM_pct value].
  rewrite Rpower_IZR by lia.
  replace (3000000 ^ 3)%Z with 27000000000000000000%Z by (vm_compute; reflexivity).
  split; field.
Qed.

(** The same capacity held as a float is costed by the curve. *)
Lemma cubic_float :
  cost_curve cubic_row (float64 3000000)
  = Ok (54000000000000000000, 5400000000000000000).
Proof.
  rewrite (cost_curve_value cubic_row (float64 3000000) 2);
    [| cbn [value]; lra | exact I | exact sample_growth | lra].
  cbn [value]. destruct cubic_formula as [-> ->]. reflexivity.
Qed.

(** The reciprocal curve at an integer capacity: an integer raised to a
    negative integer. *)
Lemma reciprocal_clamped : cost_curve reciprocal_row (int64 10) = Err ValueError.
Proof.
  reflexivity.
Qed.

Lemma reciprocal_float : cost_curve reciprocal_row (float64 10) = Ok (1 / 5, 1 / 50).
Proof.
  assert (Hpower : Rpower 10 (-1) = / 10).
  { unfold Rpower. replace (-1 * ln 10) with (- ln 10) by lra.
    rewrite exp_Ropp, exp_ln by lra. reflexivity. }
  rewrite (cost_curve_value reciprocal_row (float64 10) 2);
    [| cbn [value]; lra | exact I | exact sample_growth | lra].
  unfold spec_Opex_fixed, spec_Capex_a, spec_InvC, reciprocal_row.
  cbn [col_a col_b col_c col_d col_e IR_pct OM_pct value].
  rewrite Hpower. f_equal. f_equal; field.
Qed.

(** C6 on the code.  In [cubic_sheet], a sheet of whole numbers, a peak
    capacity of 1 MW is replaced by the cell 3000000, an integer; the
    bracket row is found and line 105 computes [3000000 ** 3] in 64-bit
    integers, which wraps: the costs returned are
    (17106511852580896768, a tenth of it), for every order of the codes
    and every valid index, where the curve gives (54000000000000000000,
    5400000000000000000) - the costs the function itself returns when the
    same capacity 3000000 arrives as a float.  In [reciprocal_sheet], with
    the exponent -1, the replaced capacity raises [ValueError] where the
    float capacity is costed. *)
Theorem calc_Cinv_VCC_integer_cells :
  clamp_capacity 1000000 (cap_min cubic_row) = int64 3000000
  /\ first_in_bracket cubic_sheet 3000000 cubic_row
  /\ calc_Cinv_VCC sheet_order 1000000 (Some cubic_sheet) 0
     = ([ReadExcel], Ok (17106511852580896768, 17106511852580896768 / 10))
  /\ (forall list_set technology,
        calc_Cinv_VCC list_set 1000000 (Some cubic_sheet) technology
        = ([ReadExcel], Ok (17106511852580896768, 17106511852580896768 / 10))
        \/ calc_Cinv_VCC list_set 1000000 (Some cubic_sheet) technology
           = ([ReadExcel], Err IndexError))
  /\ spec_Capex_a cubic_row 3000000 2 = 54000000000000000000
  /\ calc_Cinv_VCC sheet_order 3000000 (Some cubic_sheet) 0
     = ([ReadExcel], Ok (54000000000000000000, 5400000000000000000))
  /\ calc_Cinv_VCC sheet_order 5 (Some reciprocal_sheet) 0 = ([ReadExcel], Err ValueError)
  /\ calc_Cinv_VCC sheet_order 10 (Some reciprocal_sheet) 0
     = ([ReadExcel], Ok (1 / 5, 1 / 50)).
Proof.
  assert (Hclamp : clamp_capacity 1000000 (cap_min cubic_row) = int64 3000000)
    by (apply clamp_capacity_below; simpl; lra).
  assert (Hrow : first_in_bracket (cubic_row :: [])
                   (clamp_capacity 1000000 (cap_min cubic_row)) cubic_row)
    by (rewrite Hclamp; exact cubic_row_selected).
  assert (Hcost : cost_curve cubic_row (clamp_capacity 1000000 (cap_min cubic_row))
                  = Ok (17106511852580896768, 17106511852580896768 / 10))
    by (rewrite Hclamp; exact cubic_wrapped).
  split; [exact Hclamp |].
  split; [exact cubic_row_selected |].
  split.
  { rewrite <- Hcost.
    apply (calc_Cinv_VCC_first_match sheet_order 1000000 cubic_row [] 0 "CH1"%string);
      [lra | reflexivity | exact Hrow]. }
  split.
  { intros list_set technology.
    destruct (calc_Cinv_VCC_outcomes list_set 1000000 cubic_row [] technology cubic_row)
      as [H | H]; [lra | exact Hrow | left | right; exact H].
    rewrite <- Hcost. exact H. }
  split; [apply cubic_formula |].
  split.
  { assert (Hfloat : clamp_capacity 3000000 (cap_min cubic_row) = float64 3000000)
      by (apply clamp_capacity_above; simpl; lra).
    rewrite <- cubic_float, <- Hfloat.
    apply (calc_Cinv_VCC_first_match sheet_order 3000000 cubic_row [] 0 "CH1"%string);
      [lra | reflexivity |].
    rewrite Hfloat. exact cubic_row_selected. }
  split.
  { assert (Hint : clamp_capacity 5 (cap_min reciprocal_row) = int64 10)
      by (apply clamp_capacity_below; simpl; lra).
    rewrite <- reciprocal_clamped, <- Hint.
    apply (calc_Cinv_VCC_first_match sheet_order 5 reciprocal_row [] 0 "CH1"%string);
      [lra | reflexivity |].
    rewrite Hint. apply first_row_in_bracket. simpl. lra. }
  assert (Hfloat : clamp_capacity 10 (cap_min reciprocal_row) = float64 10)
    by (apply clamp_capacity_above; simpl; lra).
  rewrite <- reciprocal_float, <- Hfloat.
  apply (calc_Cinv_VCC_first_match sheet_order 10 reciprocal_row [] 0 "CH1"%string);
    [lra | reflexivity |].
  rewrite Hfloat. apply first_row_in_bracket. simpl. lra.
Qed.

(** * Further properties of the two functions *)

(** ** The operating point: errors and shape *)

(** The only failure of [calc_VCC] is a singularity. *)
Lemma calc_VCC_value_or_singular (cp T_cw m T_sup T_re : R) :
  (exists r, calc_VCC cp T_cw m T_sup T_re = Ok r)
  \/ calc_VCC cp T_cw m T_sup T_re = Err Singularity.
Proof.
  unfold calc_VCC, fdiv.
  repeat (match goal with
          | |- context [Req_dec_T ?x ?y] => destruct (Req_dec_T x y)
          end; cbn [bind]);
    try (right; reflexivity); left; eexists; reflexivity.
Qed.

Lemma calc_VCC_singular (cp T_cw m T_sup T_re : R) :
  m <> 0 ->
  ~ regular T_cw (evaporator_duty cp m T_sup T_re) T_re ->
  calc_VCC cp T_cw m T_sup T_re = Err Singularity.
Proof.
  intros Hm Hirregular.
  destruct (calc_VCC_value_or_singular cp T_cw m T_sup T_re) as [[r Hr] | H]; [| exact H].
  exfalso. apply Hirregular.
  apply (calc_VCC_returns_regular cp T_cw m T_sup T_re r Hm Hr).
Qed.

(** X1.  With a non-zero flow the function returns exactly at the regular
    operating points, and fails with a singularity at all others. *)
Theorem calc_VCC_returns_exactly_when_regular (cp T_cw m T_sup T_re : R) :
  m <> 0 ->
  ((exists r, calc_VCC cp T_cw m T_sup T_re = Ok r)
   <-> regular T_cw (evaporator_duty cp m T_sup T_re) T_re)
  /\ (~ regular T_cw (evaporator_duty cp m T_sup T_re) T_re
      -> calc_VCC cp T_cw m T_sup T_re = Err Singularity).
Proof.
  intros Hm. split; [split |].
  - intros [r Hr]. apply (calc_VCC_returns_regular cp T_cw m T_sup T_re r Hm Hr).
  - intros Hreg. eexists. apply calc_VCC_regular; assumption.
  - apply calc_VCC_singular. exact Hm.
Qed.

Lemma calc_VCC_returns_exactly_when_regular_witness :
  exists r, calc_VCC 4187 303 10 280.15 286.15 = Ok r.
Proof.
  destruct (calc_VCC_returns_exactly_when_regular 4187 303 10 280.15 286.15) as [[_ H] _].
  - lra.
  - apply H. exact reference_point_regular.
Defined.

(** X2.  Equal supply and return temperatures with a non-zero flow: the duty is
    zero and the function fails, whatever the two constants. *)
Theorem calc_VCC_no_temperature_difference (cp T_cw m T : R) :
  m <> 0 ->
  calc_VCC cp T_cw m T T = Err Singularity.
Proof.
  intros Hm. apply calc_VCC_singular; [exact Hm |].
  intros (_ & HQ & _). apply HQ. unfold evaporator_duty. ring.
Qed.

Lemma calc_VCC_no_temperature_difference_witness :
  calc_VCC 4187 303 10 286.15 286.15 = Err Singularity.
Proof.
  apply calc_VCC_no_temperature_difference. lra.
Defined.

(** X3.  At the pole of the correlation, [0.0201E-3 * Q = T_re], the function
    fails: [B - A] is zero. *)
Theorem calc_VCC_at_pole (cp T_cw m T_sup T_re : R) :
  m <> 0 ->
  0.0201E-3 * (m * cp * (T_re - T_sup)) = T_re ->
  calc_VCC cp T_cw m T_sup T_re = Err Singularity.
Proof.
  intros Hm Hpole. apply calc_VCC_singular; [exact Hm |].
  intros (HT & _ & HBA & _). apply HBA.
  unfold term_A, term_B, evaporator_duty.
  replace (T_re / T_cw - 0.0201E-3 * (m * cp * (T_re - T_sup)) / T_cw)
    with ((T_re - 0.0201E-3 * (m * cp * (T_re - T_sup))) / T_cw) by (field; exact HT).
  rewrite Hpole. unfold Rdiv. ring.
Qed.

Lemma calc_VCC_at_pole_witness :
  calc_VCC 1000 303 1000 191 201 = Err Singularity.
Proof.
  apply calc_VCC_at_pole; lra.
Defined.

(** X4.  The outputs depend on the flow and the supply temperature through the
    duty only: two calls with non-zero flows, the same return temperature
    and the same duty have the same outcome. *)
Theorem calc_VCC_depends_on_duty (cp T_cw m1 m2 T_sup1 T_sup2 T_re : R) :
  m1 <> 0 -> m2 <> 0 ->
  m1 * cp * (T_re - T_sup1) = m2 * cp * (T_re - T_sup2) ->
  calc_VCC cp T_cw m1 T_sup1 T_re = calc_VCC cp T_cw m2 T_sup2 T_re.
Proof.
  intros Hm1 Hm2 Hduty. unfold calc_VCC.
  destruct (Req_dec_T m1 0) as [E | _]; [contradiction |].
  destruct (Req_dec_T m2 0) as [E | _]; [contradiction |].
  cbv zeta. rewrite Hduty. reflexivity.
Qed.

Lemma calc_VCC_depends_on_duty_witness :
  calc_VCC 4187 303 10 280 286 = calc_VCC 4187 303 20 283 286.
Proof.
  apply calc_VCC_depends_on_duty; lra.
Defined.

(** X5.  At a regular point both outputs are rational functions of the duty
    [Q] with the pole [0.0201E-3 * Q = T_re]:
    [q_cw = (Q + c0) * T_cw / (T_re - 0.0201E-3 * Q)] and
    [wdot = q_cw - Q]. *)
Theorem calc_VCC_rational_form (cp T_cw m T_sup T_re : R) :
  m <> 0 ->
  regular T_cw (evaporator_duty cp m T_sup T_re) T_re ->
  let Q := m * cp * (T_re - T_sup) in
  let k := 0.1980E3 * T_re + 168.1846E3 * (T_cw - T_re) / T_cw in
  calc_VCC cp T_cw m T_sup T_re
  = Ok {| wdot_W := (Q + k) * T_cw / (T_re - 0.0201E-3 * Q) - Q;
          q_cw_W := (Q + k) * T_cw / (T_re - 0.0201E-3 * Q) |}.
Proof.
  intros Hm Hreg Q k.
  rewrite (calc_VCC_regular cp T_cw m T_sup T_re Hm Hreg).
  rewrite (power_closed_form T_cw _ T_re Hreg).
  unfold evaporator_duty, c0. fold Q. fold k. f_equal. f_equal. ring.
Qed.

Lemma calc_VCC_rational_form_witness :
  exists r,
    calc_VCC 4187 303 10 280.15 286.15 = Ok r /\
    q_cw_W r * (286.15 - 0.0201E-3 * 251220)
    = (251220 + (0.1980E3 * 286.15 + 168.1846E3 * (303 - 286.15) / 303)) * 303.
Proof.
  eexists. split.
  - apply (calc_VCC_rational_form 4187 303 10 280.15 286.15); [lra |].
    exact reference_point_regular.
  - cbn [q_cw_W]. replace (10 * 4187 * (286.15 - 280.15)) with 251220 by lra.
    field. lra.
Defined.

(** X6.  Above the pole the function still returns, and both outputs are
    negative. *)
Theorem calc_VCC_negative_above_pole (cp T_cw m T_sup T_re : R) :
  0 < cp -> 0 < T_sup -> T_sup < T_re -> T_re <= T_cw -> 0 < m ->
  T_re < 0.0201E-3 * (m * cp * (T_re - T_sup)) ->
  exists r,
    calc_VCC cp T_cw m T_sup T_re = Ok r /\
    wdot_W r < 0 /\ q_cw_W r < 0.
Proof.
  intros Hcp Hsup HT Hle Hm Hpole.
  fold (evaporator_duty cp m T_sup T_re) in Hpole.
  assert (Hre : 0 < T_re) by lra.
  pose proof (duty_positive cp m T_sup T_re Hcp Hm HT) as HQ.
  pose proof (c0_positive T_cw T_re Hre Hle) as Hk.
  destruct (calc_VCC_closed_form cp T_cw m T_sup T_re) as (r & Hr & Hw & Hq);
    [lra | apply regular_above_pole; assumption |].
  exists r. split; [exact Hr |].
  pose proof (closed_form_negative_above_pole T_cw _ T_re Hre Hle HQ Hpole) as Hneg.
  rewrite <- Hw in Hneg. split; [exact Hneg |].
  rewrite Hq, Hw.
  set (Q := evaporator_duty cp m T_sup T_re) in *. set (k := c0 T_cw T_re) in *.
  replace ((Q + k) * T_cw / (T_re - 0.0201E-3 * Q) - Q + Q)
    with (- ((Q + k) * T_cw / (0.0201E-3 * Q - T_re))) by (field; lra).
  apply Ropp_lt_gt_0_contravar. apply Rdiv_lt_0_compat; [| lra].
  apply Rmult_lt_0_compat; lra.
Qed.

Lemma calc_VCC_negative_above_pole_witness :
  exists r,
    calc_VCC 4187 303 1000 280.15 286.15 = Ok r /\
    wdot_W r < 0 /\ q_cw_W r < 0.
Proof.
  apply (calc_VCC_negative_above_pole 4187 303 1000 280.15 286.15); lra.
Defined.

(** X7.  Below the pole the correlation never beats the reversed Carnot cycle
    between the return temperature and the condenser inlet temperature:
    the power draw exceeds [Q * (T_cw - T_re) / T_re], and the heat
    rejected exceeds the duty. *)
Theorem calc_VCC_above_carnot_work (cp T_cw m T_sup T_re : R) :
  0 < cp -> 0 < T_sup -> T_sup < T_re -> T_re <= T_cw -> 0 < m ->
  0.0201E-3 * (m * cp * (T_re - T_sup)) < T_re ->
  exists r,
    calc_VCC cp T_cw m T_sup T_re = Ok r /\
    m * cp * (T_re - T_sup) * (T_cw - T_re) / T_re < wdot_W r /\
    m * cp * (T_re - T_sup) < q_cw_W r.
Proof.
  intros Hcp Hsup HT Hle Hm Hpole.
  fold (evaporator_duty cp m T_sup T_re) in *.
  assert (Hre : 0 < T_re) by lra.
  pose proof (duty_positive cp m T_sup T_re Hcp Hm HT) as HQ.
  pose proof (c0_positive T_cw T_re Hre Hle) as Hk.
  destruct (calc_VCC_closed_form cp T_cw m T_sup T_re) as (r & Hr & Hw & Hq);
    [lra | apply regular_below_pole; assumption |].
  exists r. split; [exact Hr |].
  set (Q := evaporator_duty cp m T_sup T_re) in *. set (k := c0 T_cw T_re) in *.
  set (D := T_re - 0.0201E-3 * Q) in *.
  assert (HD : 0 < D) by (unfold D; lra).
  assert (HDre : D < T_re) by (unfold D; lra).
  assert (Hcarnot : Q * (T_cw - T_re) / T_re < wdot_W r).
  { rewrite Hw. apply Rlt_0_minus.
    replace ((Q + k) * T_cw / D - Q - Q * (T_cw - T_re) / T_re)
      with ((k * T_cw * T_re + Q * T_cw * (T_re - D)) / (D * T_re)) by (field; lra).
    apply Rdiv_lt_0_compat; [| apply Rmult_lt_0_compat; lra].
    assert (0 < k * T_cw * T_re) by (repeat apply Rmult_lt_0_compat; lra).
    assert (0 < Q * T_cw * (T_re - D)) by (repeat apply Rmult_lt_0_compat; lra).
    lra. }
  split; [exact Hcarnot |].
  rewrite Hq.
  assert (0 <= Q * (T_cw - T_re) / T_re).
  { apply Rmult_le_pos; [apply Rmult_le_pos; lra | left; apply Rinv_0_lt_compat; lra]. }
  lra.
Qed.

Lemma calc_VCC_above_carnot_work_witness :
  exists r,
    calc_VCC 4187 303 10 280.15 286.15 = Ok r /\
    10 * 4187 * (286.15 - 280.15) * (303 - 286.15) / 286.15 < wdot_W r /\
    10 * 4187 * (286.15 - 280.15) < q_cw_W r.
Proof.
  apply (calc_VCC_above_carnot_work 4187 303 10 280.15 286.15); lra.
Defined.

(** ** The investment costs: errors and edge cases *)

(** X8.  On an empty sheet no costs are returned: the index lookup or the label
    lookup fails; with [list(set([])) = []] it is the index lookup. *)
Theorem calc_Cinv_VCC_empty_table (list_set : list string -> list string)
        (qcold_W : R) (technology : Z) :
  qcold_W > 0 ->
  (calc_Cinv_VCC list_set qcold_W (Some []) technology = ([ReadExcel], Err IndexError)
   \/ calc_Cinv_VCC list_set qcold_W (Some []) technology = ([ReadExcel], Err KeyError))
  /\ (list_set [] = [] ->
      calc_Cinv_VCC list_set qcold_W (Some []) technology = ([ReadExcel], Err IndexError)).
Proof.
  intros Hq. split.
  - destruct (list_getitem (list_set (map code [])) technology) as [c | e] eqn:Ht.
    + right. unfold calc_Cinv_VCC.
      destruct (Rgt_dec qcold_W 0) as [_ | N]; [| contradiction].
      cbn [bind]. rewrite Ht. reflexivity.
    + left. apply (calc_Cinv_VCC_bad_index list_set qcold_W [] technology e Hq Ht).
  - intros Hempty.
    apply (calc_Cinv_VCC_bad_index list_set qcold_W [] technology IndexError Hq).
    cbn [map]. rewrite Hempty. unfold list_getitem. cbn [List.length Z.of_nat].
    destruct (technology <? 0)%Z eqn:Hneg.
    + rewrite Z.add_0_r.
      assert (H : (0 <=? technology)%Z = false) by (apply Z.leb_gt, Z.ltb_lt; exact Hneg).
      rewrite H. reflexivity.
    + destruct (0 <=? technology)%Z; cbn [andb]; [| reflexivity].
      assert (H : (technology <? 0)%Z = false) by exact Hneg.
      rewrite H. reflexivity.
Qed.

Lemma calc_Cinv_VCC_empty_table_witness :
  calc_Cinv_VCC sheet_order 50 (Some []) 1 = ([ReadExcel], Err IndexError).
Proof.
  destruct (calc_Cinv_VCC_empty_table sheet_order 50 1) as [_ H]; [lra |].
  apply H. reflexivity.
Defined.

(** X9.  A technology index outside [-n, n), for the [n] distinct codes of the
    sheet, gives an index error whatever the capacity and the rows. *)
Theorem calc_Cinv_VCC_index_out_of_range (list_set : list string -> list string)
        (qcold_W : R) (frame : DataFrame) (technology : Z) :
  qcold_W > 0 ->
  (Z.of_nat (List.length (list_set (map code frame))) <= technology
   \/ technology < - Z.of_nat (List.length (list_set (map code frame))))%Z ->
  calc_Cinv_VCC list_set qcold_W (Some frame) technology = ([ReadExcel], Err IndexError).
Proof.
  intros Hq Hrange.
  apply (calc_Cinv_VCC_bad_index list_set qcold_W frame technology IndexError Hq).
  unfold list_getitem.
  set (n := Z.of_nat (List.length (list_set (map code frame)))) in *.
  assert (Hn : (0 <= n)%Z) by (unfold n; apply Nat2Z.is_nonneg).
  destruct (technology <? 0)%Z eqn:Hneg.
  - apply Z.ltb_lt in Hneg.
    assert (H : (0 <=? technology + n)%Z = false) by (apply Z.leb_gt; lia).
    rewrite H. reflexivity.
  - apply Z.ltb_ge in Hneg.
    assert (H : (technology <? n)%Z = false) by (apply Z.ltb_ge; lia).
    rewrite H, andb_false_r. reflexivity.
Qed.

Lemma calc_Cinv_VCC_index_out_of_range_witness :
  calc_Cinv_VCC sheet_order 50 (Some two_technologies) 2 = ([ReadExcel], Err IndexError)
  /\ calc_Cinv_VCC sheet_order 50 (Some two_technologies) (-3) = ([ReadExcel], Err IndexError).
Proof.
  split; apply calc_Cinv_VCC_index_out_of_range; try lra.
  - left. vm_compute. discriminate.
  - right. vm_compute. reflexivity.
Defined.

(** A negative index counts from the end of the list of codes: [-1] is
    accepted whenever the sheet has a code, like [n - 1]. *)
Lemma list_getitem_in_range {A : Type} (l : list A) (i : Z) :
  (- Z.of_nat (List.length l) <= i < Z.of_nat (List.length l))%Z ->
  exists x, list_getitem l i = Ok x /\ In x l.
Proof.
  intros Hi. unfold list_getitem.
  set (n := Z.of_nat (List.length l)) in *.
  set (j := if (i <? 0)%Z then (i + n)%Z else i).
  assert (Hj : (0 <= j < n)%Z).
  { unfold j. destruct (i <? 0)%Z eqn:Hneg.
    - apply Z.ltb_lt in Hneg. lia.
    - apply Z.ltb_ge in Hneg. lia. }
  assert (H1 : (0 <=? j)%Z = true) by (apply Z.leb_le; lia).
  assert (H2 : (j <? n)%Z = true) by (apply Z.ltb_lt; lia).
  rewrite H1, H2. cbn [andb].
  destruct (nth_error l (Z.to_nat j)) as [x |] eqn:Hx.
  - exists x. split; [reflexivity | apply (nth_error_In l (Z.to_nat j) Hx)].
  - exfalso. apply nth_error_None in Hx. unfold n in Hj. lia.
Qed.

(** ** The investment costs: clamping and selection *)

Lemma first_in_bracket_In (frame : DataFrame) (q : R) (r : row) :
  first_in_bracket frame q r -> In r frame.
Proof.
  intros (before & after & -> & _ & _). apply in_elt.
Qed.

(** X10.  A positive capacity below [cap_min] at the label 0 has the outcome of
    that [cap_min] as input, for every technology index, as long as line
    105 is in range on the [cap_min] cell for the row that is selected (the
    replaced capacity is the cell, an integer for a column of whole
    numbers, where the input is a float). *)
Theorem calc_Cinv_VCC_undersized_demand (list_set : list string -> list string)
        (qcold_W : R) (first : row) (rest : DataFrame) (technology : Z) :
  qcold_W > 0 -> qcold_W < cap_min first ->
  (forall r, first_in_bracket (first :: rest) (cap_min first) r ->
             integer_safe r (cap_min first)) ->
  calc_Cinv_VCC list_set qcold_W (Some (first :: rest)) technology
  = calc_Cinv_VCC list_set (cap_min first) (Some (first :: rest)) technology.
Proof.
  apply calc_Cinv_VCC_clamps_to_label0.
Qed.

Lemma calc_Cinv_VCC_undersized_demand_witness :
  calc_Cinv_VCC sheet_order 5 (Some one_technology) 0
  = calc_Cinv_VCC sheet_order 10 (Some one_technology) 0.
Proof.
  apply (calc_Cinv_VCC_undersized_demand sheet_order 5 small_chiller [large_chiller] 0).
  - lra.
  - simpl. lra.
  - intros r Hr. apply first_in_bracket_In in Hr.
    destruct Hr as [<- | [<- | []]]; apply sample_row_safe; lia.
Defined.

(** X11.  A positive capacity below the smallest [cap_min] of the sheet has the
    outcome of that smallest [cap_min] as input, as long as line 105 is in
    range on the first row's [cap_min] cell for the row that is
    selected. *)
Theorem calc_Cinv_VCC_table_minimum_input (list_set : list string -> list string)
        (qcold_W : R) (first : row) (rest : DataFrame) (technology : Z) :
  qcold_W > 0 -> qcold_W < table_minimum first rest ->
  (forall r, first_in_bracket (first :: rest) (cap_min first) r ->
             integer_safe r (cap_min first)) ->
  calc_Cinv_VCC list_set qcold_W (Some (first :: rest)) technology
  = calc_Cinv_VCC list_set (table_minimum first rest) (Some (first :: rest)) technology.
Proof.
  apply calc_Cinv_VCC_below_table_minimum.
Qed.

Lemma table_minimum_big_units_first : table_minimum big_units [small_units] = 10.
Proof.
  simpl. unfold Rmin. destruct (Rle_dec 100 10) as [H | _]; [lra | reflexivity].
Qed.

Lemma calc_Cinv_VCC_table_minimum_input_witness :
  calc_Cinv_VCC sheet_order 5 (Some big_units_first) 0
  = calc_Cinv_VCC sheet_order 10 (Some big_units_first) 0.
Proof.
  rewrite <- table_minimum_big_units_first.
  apply (calc_Cinv_VCC_table_minimum_input sheet_order 5 big_units [small_units] 0).
  - lra.
  - rewrite table_minimum_big_units_first. lra.
  - intros r Hr. apply first_in_bracket_In in Hr.
    destruct Hr as [<- | [<- | []]]; apply sample_row_safe; lia.
Defined.

(** X12.  An undersized demand is costed on the first row of the sheet, at that
    row's [cap_min], whenever that row's bracket is not empty: neither the
    technology index nor the other rows matter. *)
Theorem calc_Cinv_VCC_undersized_on_first_row (list_set : list string -> list string)
        (qcold_W : R) (first : row) (rest : DataFrame) (technology : Z) (selected : string) :
  qcold_W > 0 -> qcold_W < cap_min first -> cap_min first < cap_max first ->
  list_getitem (list_set (map code (first :: rest))) technology = Ok selected ->
  calc_Cinv_VCC list_set qcold_W (Some (first :: rest)) technology
  = ([ReadExcel], cost_curve first (cap_min first)).
Proof.
  intros Hq Hlt Hbracket Hsel.
  rewrite (calc_Cinv_VCC_first_match list_set qcold_W first rest technology selected first Hq Hsel).
  - rewrite clamp_capacity_below by exact Hlt. reflexivity.
  - apply first_row_in_bracket. rewrite clamp_capacity_below by exact Hlt. lra.
Qed.

Lemma calc_Cinv_VCC_undersized_on_first_row_witness :
  calc_Cinv_VCC sheet_order 5 (Some big_units_first) 1
  = ([ReadExcel], cost_curve big_units (int64 100)).
Proof.
  apply (calc_Cinv_VCC_undersized_on_first_row sheet_order 5 big_units [small_units]
           1 "CH2"%string); simpl; try lra.
  reflexivity.
Defined.

(** X13.  The upper bound of a bracket is exclusive and nothing extends the last
    bracket: a capacity that reaches every [cap_max] of the sheet gives an
    index error. *)
Theorem calc_Cinv_VCC_above_all_brackets (list_set : list string -> list string)
        (qcold_W : R) (first : row) (rest : DataFrame) (technology : Z) (selected : string) :
  qcold_W > 0 ->
  list_getitem (list_set (map code (first :: rest))) technology = Ok selected ->
  (forall r, In r (first :: rest) -> cap_max r <= qcold_W) ->
  calc_Cinv_VCC list_set qcold_W (Some (first :: rest)) technology
  = ([ReadExcel], Err IndexError).
Proof.
  intros Hq Hsel Hall.
  rewrite (calc_Cinv_VCC_loaded list_set qcold_W first rest technology selected Hq Hsel).
  rewrite iloc0_select_bracket_none; [reflexivity |].
  intros r Hr [_ Hmax]. specialize (Hall r Hr).
  unfold clamp_capacity in Hmax.
  destruct (Rlt_dec qcold_W (cap_min first)) as [Hclamp | _]; cbn [value] in Hmax; lra.
Qed.

Lemma calc_Cinv_VCC_above_all_brackets_witness :
  calc_Cinv_VCC sheet_order 1000 (Some one_technology) 0 = ([ReadExcel], Err IndexError).
Proof.
  apply (calc_Cinv_VCC_above_all_brackets sheet_order 1000 small_chiller [large_chiller]
           0 "CH1"%string).
  - lra.
  - reflexivity.
  - intros r [<- | [<- | []]]; simpl; lra.
Defined.

(** ** The investment costs: annualisation *)

Lemma Rpower_base_one (y : R) : Rpower 1 y = 1.
Proof.
  unfold Rpower. rewrite ln_1, Rmult_0_r. apply exp_0.
Qed.

(** [x ** 0] is 1 or has no value. *)
Lemma py_pow_exponent_zero (x : R) : py_pow x 0 = Ok 1 \/ py_pow x 0 = Err Singularity.
Proof.
  unfold py_pow.
  destruct (Rlt_dec 0 x) as [Hpos | _].
  - left. rewrite Rpower_O by exact Hpos. reflexivity.
  - destruct (Req_dec_T x 0) as [_ | _].
    + destruct (Rlt_dec 0 0) as [H | _]; [lra |].
      destruct (Req_dec_T 0 0) as [_ | N]; [left; reflexivity | now destruct N].
    + destruct (Req_dec_T (IZR (Int_part 0)) 0) as [E | _]; [| right; reflexivity].
      left. apply eq_IZR in E. rewrite E. reflexivity.
Qed.

(** The power of line 105 at a positive capacity is taken, unless an
    integer capacity meets a negative integer exponent. *)
Lemma num_pow_outcome (q c : number) :
  q > 0 ->
  (exists power, num_pow q c = Ok power)
  \/ (num_pow q c = Err ValueError
      /\ exists z k, q = int64 z /\ c = int64 k /\ (k < 0)%Z).
Proof.
  intros Hq. destruct q as [z | x]; destruct c as [k | y]; cbn [num_pow value] in *.
  - destruct (k <? 0)%Z eqn:Hk.
    + right. split; [reflexivity |]. exists z, k. apply Z.ltb_lt in Hk. auto.
    + left. eexists. reflexivity.
  - left. rewrite py_pow_positive by exact Hq. eexists. reflexivity.
  - left. rewrite py_pow_positive by exact Hq. eexists. reflexivity.
  - left. rewrite py_pow_positive by exact Hq. eexists. reflexivity.
Qed.

Lemma growth_is_one (r : row) :
  IR_pct r = 0 :> R \/ LT_yr r = 0 :> R ->
  py_pow (1 + IR_pct r / 100) (LT_yr r) = Ok 1
  \/ py_pow (1 + IR_pct r / 100) (LT_yr r) = Err Singularity.
Proof.
  intros [HIR | HLT].
  - left. rewrite HIR. replace (1 + 0 / 100) with 1 by lra.
    rewrite py_pow_positive by lra. rewrite Rpower_base_one. reflexivity.
  - rewrite HLT. apply py_pow_exponent_zero.
Qed.

Lemma cost_curve_singular (r : row) (q : number) :
  q > 0 ->
  IR_pct r = 0 :> R \/ LT_yr r = 0 :> R ->
  (cost_curve r q = Err Singularity \/ cost_curve r q = Err ValueError)
  /\ ((forall z k, q = int64 z -> col_c r = int64 k -> (0 <= k)%Z) ->
      cost_curve r q = Err Singularity).
Proof.
  intros Hq Hzero.
  assert (Hpast : forall power, num_pow q (col_c r) = Ok power ->
                                cost_curve r q = Err Singularity).
  { intros power Hpower. unfold cost_curve.
    rewrite Hpower, py_log_positive by lra. cbn [bind].
    destruct (growth_is_one r Hzero) as [-> | ->]; cbn [bind]; [| reflexivity].
    replace (1 - 1) with 0 by lra. rewrite fdiv_zero. reflexivity. }
  destruct (num_pow_outcome q (col_c r) Hq) as [[power Hpower] | [Herr (z & k & Ez & Ek & Hk)]].
  - split; [left |]; intros; apply (Hpast power Hpower).
  - split.
    + right. unfold cost_curve. rewrite Herr. reflexivity.
    + intros Hnonneg. specialize (Hnonneg z k Ez Ek). lia.
Qed.

(** X14.  With an interest rate of zero or a lifetime of zero the capital
    recovery factor divides by zero: no costs are returned for a capacity
    that falls in such a row.  The failure is the division by zero, unless
    line 105 fails first on an integer capacity with a negative integer
    exponent. *)
Theorem calc_Cinv_VCC_zero_rate_or_lifetime (list_set : list string -> list string)
        (qcold_W : R) (first : row) (rest : DataFrame) (technology : Z)
        (selected : string) (r : row) :
  qcold_W > 0 ->
  list_getitem (list_set (map code (first :: rest))) technology = Ok selected ->
  first_in_bracket (first :: rest) (clamp_capacity qcold_W (cap_min first)) r ->
  IR_pct r = 0 :> R \/ LT_yr r = 0 :> R ->
  (calc_Cinv_VCC list_set qcold_W (Some (first :: rest)) technology
   = ([ReadExcel], Err Singularity)
   \/ calc_Cinv_VCC list_set qcold_W (Some (first :: rest)) technology
      = ([ReadExcel], Err ValueError))
  /\ ((forall z k, clamp_capacity qcold_W (cap_min first) = int64 z ->
                   col_c r = int64 k -> (0 <= k)%Z) ->
      calc_Cinv_VCC list_set qcold_W (Some (first :: rest)) technology
      = ([ReadExcel], Err Singularity)).
Proof.
  intros Hq Hsel Hrow Hzero.
  rewrite (calc_Cinv_VCC_first_match list_set qcold_W first rest technology selected r Hq Hsel Hrow).
  destruct (cost_curve_singular r (clamp_capacity qcold_W (cap_min first))
              (clamp_capacity_positive qcold_W (cap_min first) Hq) Hzero) as [[H | H] Hfloat].
  - split; [left; rewrite H; reflexivity |].
    intros Hnonneg. rewrite (Hfloat Hnonneg). reflexivity.
  - split; [right; rewrite H; reflexivity |].
    intros Hnonneg. rewrite (Hfloat Hnonneg). reflexivity.
Qed.

Lemma Rpower_above_one (x y : R) : 1 < x -> 0 < y -> 1 < Rpower x y.
Proof.
  intros Hx Hy. unfold Rpower. rewrite <- exp_0. apply exp_increasing.
  apply Rmult_lt_0_compat; [exact Hy |]. rewrite <- ln_1. apply ln_increasing; lra.
Qed.

Lemma cost_curve_positive_rate (r : row) (q : number) :
  q > 0 -> integer_safe r q -> IR_pct r > 0 -> LT_yr r > 0 ->
  cost_curve r q
  = Ok (spec_Capex_a r q (Rpower (1 + IR_pct r / 100) (LT_yr r)),
        spec_Opex_fixed r q (Rpower (1 + IR_pct r / 100) (LT_yr r))).
Proof.
  intros Hq Hsafe HIR HLT.
  assert (Hgrowth : 1 < Rpower (1 + IR_pct r / 100) (LT_yr r))
    by (apply Rpower_above_one; lra).
  apply cost_curve_value; [exact Hq | exact Hsafe | apply py_pow_positive; lra | lra].
Qed.

(** X15.  With a positive interest rate and a positive lifetime in the selected
    row, and line 105 in range on that row and the capacity in use, the
    function returns: [(1+IR)^LT] exceeds 1, so the capital recovery factor
    is defined, and it exceeds the interest rate. *)
Theorem calc_Cinv_VCC_returns_for_positive_rate (list_set : list string -> list string)
        (qcold_W : R) (first : row) (rest : DataFrame) (technology : Z)
        (selected : string) (r : row) :
  qcold_W > 0 ->
  list_getitem (list_set (map code (first :: rest))) technology = Ok selected ->
  first_in_bracket (first :: rest) (clamp_capacity qcold_W (cap_min first)) r ->
  integer_safe r (clamp_capacity qcold_W (cap_min first)) ->
  IR_pct r > 0 -> LT_yr r > 0 ->
  let q := clamp_capacity qcold_W (cap_min first) in
  let IR := IR_pct r / 100 in
  let growth := Rpower (1 + IR) (LT_yr r) in
  let InvC := col_a r + col_b r * Rpower q (col_c r) + (col_d r + col_e r * q) * ln q in
  let Capex_a := InvC * IR * growth / (growth - 1) in
  calc_Cinv_VCC list_set qcold_W (Some (first :: rest)) technology
  = ([ReadExcel], Ok (Capex_a, Capex_a * (OM_pct r / 100)))
  /\ 1 < growth
  /\ IR < IR * growth / (growth - 1).
Proof.
  intros Hq Hsel Hrow Hsafe HIR HLT q IR growth InvC Capex_a.
  assert (Hgrowth : 1 < growth) by (apply Rpower_above_one; unfold IR; lra).
  split; [| split; [exact Hgrowth |]].
  - rewrite (calc_Cinv_VCC_first_match list_set qcold_W first rest technology selected r Hq Hsel Hrow).
    fold q. rewrite cost_curve_positive_rate;
      [reflexivity | apply clamp_capacity_positive; exact Hq | exact Hsafe
       | exact HIR | exact HLT].
  - apply Rlt_0_minus.
    replace (IR * growth / (growth - 1) - IR) with (IR / (growth - 1)) by (field; lra).
    apply Rdiv_lt_0_compat; unfold IR; lra.
Qed.

(** X16.  With a lifetime of [n >= 1] whole years and a positive interest
    rate, and line 105 in range on the selected row and the capacity in
    use, the annuity is the textbook one:
    [Capex_a = InvC * IR * (1+IR)^n / ((1+IR)^n - 1)]. *)
Theorem calc_Cinv_VCC_whole_years (list_set : list string -> list string)
        (qcold_W : R) (first : row) (rest : DataFrame) (technology : Z)
        (selected : string) (r : row) (n : nat) :
  qcold_W > 0 ->
  list_getitem (list_set (map code (first :: rest))) technology = Ok selected ->
  first_in_bracket (first :: rest) (clamp_capacity qcold_W (cap_min first)) r ->
  integer_safe r (clamp_capacity qcold_W (cap_min first)) ->
  IR_pct r > 0 -> LT_yr r = INR n :> R -> (1 <= n)%nat ->
  let q := clamp_capacity qcold_W (cap_min first) in
  let IR := IR_pct r / 100 in
  let InvC := col_a r + col_b r * Rpower q (col_c r) + (col_d r + col_e r * q) * ln q in
  let Capex_a := InvC * IR * (1 + IR) ^ n / ((1 + IR) ^ n - 1) in
  calc_Cinv_VCC list_set qcold_W (Some (first :: rest)) technology
  = ([ReadExcel], Ok (Capex_a, Capex_a * (OM_pct r / 100))).
Proof.
  intros Hq Hsel Hrow Hsafe HIR HLT Hn q IR InvC Capex_a.
  assert (HLTpos : LT_yr r > 0) by (rewrite HLT; apply lt_0_INR; lia).
  rewrite (calc_Cinv_VCC_first_match list_set qcold_W first rest technology selected r Hq Hsel Hrow).
  fold q. rewrite cost_curve_positive_rate;
    [| apply clamp_capacity_positive; exact Hq | exact Hsafe | exact HIR | exact HLTpos].
  unfold spec_Opex_fixed, spec_Capex_a, spec_InvC.
  rewrite HLT, Rpower_pow by (lra). reflexivity.
Qed.

Lemma calc_Cinv_VCC_zero_rate_or_lifetime_witness :
  calc_Cinv_VCC sheet_order 50 (Some interest_free_sheet) 0 = ([ReadExcel], Err Singularity).
Proof.
  assert (Hq : clamp_capacity 50 (cap_min interest_free) = float64 50)
    by (apply clamp_capacity_above; simpl; lra).
  destruct (calc_Cinv_VCC_zero_rate_or_lifetime sheet_order 50 interest_free [] 0
              "CH1"%string interest_free) as [_ H].
  - lra.
  - reflexivity.
  - apply first_row_in_bracket. rewrite Hq. simpl. lra.
  - left. reflexivity.
  - apply H. intros z k Ez _. rewrite Hq in Ez. discriminate Ez.
Defined.

Lemma small_chiller_at_50 : clamp_capacity 50 (cap_min small_chiller) = float64 50.
Proof.
  apply clamp_capacity_above. simpl. lra.
Qed.

Lemma small_chiller_selected_at_50 :
  first_in_bracket (small_chiller :: [large_chiller])
    (clamp_capacity 50 (cap_min small_chiller)) small_chiller.
Proof.
  apply first_row_in_bracket. rewrite small_chiller_at_50. simpl. lra.
Qed.

Lemma calc_Cinv_VCC_returns_for_positive_rate_witness :
  exists Capex_a,
    calc_Cinv_VCC sheet_order 50 (Some one_technology) 0
    = ([ReadExcel], Ok (Capex_a, Capex_a * (10 / 100))).
Proof.
  destruct (calc_Cinv_VCC_returns_for_positive_rate sheet_order 50 small_chiller
              [large_chiller] 0 "CH1"%string small_chiller) as (H & _ & _).
  - lra.
  - reflexivity.
  - exact small_chiller_selected_at_50.
  - rewrite small_chiller_at_50. exact I.
  - simpl. lra.
  - simpl. lra.
  - eexists. exact H.
Defined.

Lemma calc_Cinv_VCC_whole_years_witness :
  calc_Cinv_VCC sheet_order 50 (Some one_technology) 0 = ([ReadExcel], Ok (2100, 210)).
Proof.
  pose proof (calc_Cinv_VCC_whole_years sheet_order 50 small_chiller [large_chiller]
                0 "CH1"%string small_chiller 1) as H.
  cbv zeta in H.
  etransitivity.
  - apply H.
    + lra.
    + reflexivity.
    + exact small_chiller_selected_at_50.
    + rewrite small_chiller_at_50. exact I.
    + simpl. lra.
    + simpl. reflexivity.
    + apply le_n.
  - rewrite small_chiller_at_50.
    cbn [small_chiller sample_row col_a col_b col_c col_d col_e IR_pct OM_pct value].
    rewrite Rpower_1 by lra. do 2 f_equal. f_equal; field.
Defined.





